(** * VRAM guard: a shallow embedding of [vram_guard.py]

    The program samples GPU memory through [nvidia-smi], compares the
    sample with a threshold and, above it, asks a local Ollama service
    for its resident models and unloads each of them.

    The embedding keeps the program's structure: one Rocq function per
    Python function, [try]/[except] as an explicit handler combinator, the
    outside world (sub-process, HTTP service, clock, interpreter builtins)
    as a record of oracles that see the history of effects so far, and
    every effect recorded as an event. *)

From Stdlib Require Import ZArith List String Ascii Bool Lia.
From Stdlib Require Import Floats.SpecFloat.
Import ListNotations.

Local Open Scope string_scope.
Local Open Scope list_scope.
Local Open Scope Z_scope.

(** ** Python values *)

(** Python's [float] is IEEE-754 binary64. *)
Definition float : Type := spec_float.
Definition prec : Z := 53.
Definition emax : Z := 1024.

(** The literal [0.0]. *)
Definition float_zero : float := S754_zero false.

(** [x == y] on two floats. *)
Definition float_eqb (x y : float) : bool := SFeqb x y.

(** Comparison of a float with an [int].  Python compares the exact
    mathematical values (no rounding of the integer); comparisons with NaN
    are unordered. *)
Definition float_cmp_int (x : float) (t : Z) : option comparison :=
  match x with
  | S754_nan => None
  | S754_infinity neg => Some (if neg then Lt else Gt)
  | S754_zero _ => Some (0 ?= t)
  | S754_finite neg m e =>
      let n := if neg then Z.neg m else Z.pos m in
      Some (if 0 <=? e then n * 2 ^ e ?= t else n ?= t * 2 ^ (- e))
  end.

(** [x > t] for a float [x] and an int [t]. *)
Definition float_gt_int (x : float) (t : Z) : bool :=
  match float_cmp_int x t with Some Gt => true | _ => false end.

(** [x == t] for a float [x] and an int [t]. *)
Definition float_eq_int (x : float) (t : Z) : bool :=
  match float_cmp_int x t with Some Eq => true | _ => false end.

(** The float nearest to an integer. *)
Definition float_of_Z (z : Z) : float := binary_normalize prec emax z 0 false.

(** Exceptions the program can meet.  [OtherError] stands for any further
    subclass of [Exception]. *)
Inductive exn : Type :=
  | FileNotFoundError
  | ValueError
  | TypeError
  | AttributeError
  | ClientError
  | TimeoutError
  | ContentTypeError
  | OtherError (cls : string)
  | KeyboardInterrupt
  | CancelledError
  | SystemExit.

(** Whether [except Exception] catches it: everything but the direct
    subclasses of [BaseException]. *)
Definition is_Exception (e : exn) : bool :=
  match e with
  | KeyboardInterrupt | CancelledError | SystemExit => false
  | _ => true
  end.

Inductive outcome (A : Type) : Type :=
  | Returned (a : A)
  | Raised (e : exn).
Arguments Returned {A} a.
Arguments Raised {A} e.

Set Warnings "-register-all".

(** What [resp.json()] can produce, hence what flows through
    [get_loaded_models], the [for] loops and [unload_model]. *)
Inductive pyval : Type :=
  | PNone
  | PBool (b : bool)
  | PInt (z : Z)
  | PFloat (f : float)
  | PStr (s : string)
  | PList (l : list pyval)
  | PDict (d : list (string * pyval)).

(** Truth value, as tested by [if loaded:]. *)
Definition truthy (v : pyval) : bool :=
  match v with
  | PNone => false
  | PBool b => b
  | PInt z => negb (z =? 0)
  | PFloat f => negb (float_eqb f float_zero)
  | PStr s => negb (String.eqb s "")
  | PList l => match l with [] => false | _ => true end
  | PDict d => match d with [] => false | _ => true end
  end.

Fixpoint assoc (k : string) (d : list (string * pyval)) : option pyval :=
  match d with
  | [] => None
  | (k', v) :: d' => if String.eqb k k' then Some v else assoc k d'
  end.

(** [v.get(key, default)]: only a dict has it. *)
Definition py_get (v : pyval) (key : string) (default : pyval) : outcome pyval :=
  match v with
  | PDict d => Returned (match assoc key d with Some x => x | None => default end)
  | _ => Raised AttributeError
  end.

(** [len(v)]. *)
Definition py_len (v : pyval) : outcome Z :=
  match v with
  | PStr s => Returned (Z.of_nat (String.length s))
  | PList l => Returned (Z.of_nat (List.length l))
  | PDict d => Returned (Z.of_nat (List.length d))
  | _ => Raised TypeError
  end.

Fixpoint chars (s : string) : list pyval :=
  match s with
  | EmptyString => []
  | String c s' => PStr (String c EmptyString) :: chars s'
  end.

(** The items [for x in v] goes through: the elements of a list, the keys
    of a dict, the characters of a string. *)
Definition py_iter (v : pyval) : outcome (list pyval) :=
  match v with
  | PStr s => Returned (chars s)
  | PList l => Returned l
  | PDict d => Returned (map (fun kv => PStr (fst kv)) d)
  | _ => Raised TypeError
  end.

(** ** Text of the measurement tool

    [str.strip] and [str.splitlines] on text whose code points are below
    256 (what [string] holds). *)

Definition is_space (c : ascii) : bool :=
  let n := N_of_ascii c in
  ((9 <=? n) && (n <=? 13) || (28 <=? n) && (n <=? 32)
   || (n =? 133) || (n =? 160))%N.

Fixpoint lstrip (s : string) : string :=
  match s with
  | EmptyString => EmptyString
  | String c s' => if is_space c then lstrip s' else s
  end.

Fixpoint rstrip (s : string) : string :=
  match s with
  | EmptyString => EmptyString
  | String c s' =>
      match rstrip s' with
      | EmptyString => if is_space c then EmptyString else String c EmptyString
      | r => String c r
      end
  end.

Definition strip (s : string) : string := lstrip (rstrip s).

(** Line boundaries of [str.splitlines] other than [\r] and [\r\n]. *)
Definition is_linebreak (c : ascii) : bool :=
  let n := N_of_ascii c in
  ((n =? 10) || (n =? 11) || (n =? 12) || (n =? 28) || (n =? 29)
   || (n =? 30) || (n =? 133))%N.

Definition is_cr (c : ascii) : bool := (N_of_ascii c =? 13)%N.

Definition rev_string (acc : list ascii) : string :=
  string_of_list_ascii (rev acc).

(** [acc] holds the current line, last character first. *)
Fixpoint splitlines_from (acc : list ascii) (s : string) : list string :=
  match s with
  | EmptyString => match acc with [] => [] | _ => [rev_string acc] end
  | String c s' =>
      if is_cr c then
        match s' with
        | String c' s'' =>
            if (N_of_ascii c' =? 10)%N
            then rev_string acc :: splitlines_from [] s''
            else rev_string acc :: splitlines_from [] s'
        | EmptyString => rev_string acc :: splitlines_from [] s'
        end
      else if is_linebreak c then rev_string acc :: splitlines_from [] s'
      else splitlines_from (c :: acc) s'
  end.

Definition splitlines (s : string) : list string := splitlines_from [] s.

(** ** Effects *)

Inductive level : Type := DEBUG | INFO | WARNING | ERROR.

(** One constructor per log line of the program, with the values the
    line interpolates. *)
Inductive message : Type :=
  | MsgSmiNotFound
  | MsgErrorReadingVram (e : exn)
  | MsgCouldNotConnect (url : string) (e : exn)
  | MsgDryRun (model_name : pyval)
  | MsgUnloading (model_name : pyval)
  | MsgUnloaded (model_name : pyval)
  | MsgUnloadFailed (model_name : pyval) (status : Z)
  | MsgErrorUnloading (e : exn)
  | MsgGuardActive
  | MsgThreshold (threshold_mb : Z)
  | MsgInterval (interval : Z)
  | MsgUrl (ollama_url : string)
  | MsgUnavailable
  | MsgHighVram (vram_used : float) (threshold_mb : Z)
  | MsgFound (n : Z)
  | MsgNoOllamaModels
  | MsgVramOk (vram_used : float)
  | MsgStopping
  | MsgUnexpected (e : exn)
  | MsgManualCleanup
  | MsgNoModelsFound.

Inductive event : Type :=
  | EvRun (argv : list string)
  | EvGet (url : string)
  | EvPost (url : string) (payload : pyval)
  | EvSleep (seconds : Z)
  | EvLog (lvl : level) (msg : message).

Definition trace : Type := list event.

(** The environment.  Every oracle sees the events that happened before
    the call, so its answers may change over time.  [py_float] and
    [py_sum] are the interpreter's [float(str)] ([None] for [ValueError])
    and [sum] over floats. *)
Record world : Type := {
  platform_system : string;
  py_float : string -> option float;
  py_sum : list float -> float;
  subprocess_run : trace -> list string -> outcome (Z * string);
  session_get : trace -> string -> outcome (Z * outcome pyval);
  session_post : trace -> string -> pyval -> outcome Z;
  asyncio_sleep : trace -> Z -> outcome unit
}.

(** A computation reads the history and yields an outcome together with
    the events it added. *)
Definition M (A : Type) : Type := trace -> outcome A * trace.

Definition ret {A} (a : A) : M A := fun _ => (Returned a, []).

Definition lift {A} (o : outcome A) : M A := fun _ => (o, []).

Definition emit (ev : event) : M unit := fun _ => (Returned tt, [ev]).

Definition ask {A} (oracle : trace -> outcome A) : M A :=
  fun h => (oracle h, []).

Definition bind {A B} (m : M A) (f : A -> M B) : M B :=
  fun h =>
    match m h with
    | (Returned a, e1) => let (r, e2) := f a (h ++ e1) in (r, e1 ++ e2)
    | (Raised x, e1) => (Raised x, e1)
    end.

(** [try: m  except ...: handler]; [handler e = None] when no clause
    matches [e]. *)
Definition try_except {A} (m : M A) (handler : exn -> option (M A)) : M A :=
  fun h =>
    match m h with
    | (Returned a, e1) => (Returned a, e1)
    | (Raised x, e1) =>
        match handler x with
        | Some k => let (r, e2) := k (h ++ e1) in (r, e1 ++ e2)
        | None => (Raised x, e1)
        end
    end.

Declare Scope py_scope.
Delimit Scope py_scope with py.
Notation "x <- m ;; k" := (bind m (fun x => k))
  (at level 100, m at next level, right associativity) : py_scope.
Notation "m ;; k" := (bind m (fun _ => k))
  (at level 100, right associativity) : py_scope.
Local Open Scope py_scope.

Definition log (lvl : level) (msg : message) : M unit := emit (EvLog lvl msg).

(** [for x in xs: body x]. *)
Fixpoint for_each {A} (xs : list A) (body : A -> M unit) : M unit :=
  match xs with
  | [] => ret tt
  | x :: xs' => body x ;; for_each xs' body
  end.

(** ** The program *)

Record VRAMManager : Type := {
  threshold_mb : Z;
  ollama_url : string;
  interval : Z;
  dry_run : bool;
  system : string
}.

Definition VRAMManager_init (w : world) (threshold_mb : Z)
    (ollama_url : string) (interval : Z) (dry_run : bool) : VRAMManager :=
  {| threshold_mb := threshold_mb; ollama_url := ollama_url;
     interval := interval; dry_run := dry_run;
     system := platform_system w |}.

Definition nvidia_smi_argv : list string :=
  ["nvidia-smi"; "--query-gpu=memory.used"; "--format=csv,noheader,nounits"].

(** [float(line) for line in lines]: stops at the first line that is not
    a number. *)
Fixpoint floats_of (w : world) (lines : list string) : outcome (list float) :=
  match lines with
  | [] => Returned []
  | line :: rest =>
      match py_float w line with
      | None => Raised ValueError
      | Some v =>
          match floats_of w rest with
          | Returned vs => Returned (v :: vs)
          | Raised e => Raised e
          end
      end
  end.

(** A [try] body that may [return v] ([Some v]) or fall through ([None]). *)
Definition finish {A} (r : option A) (fallthrough : A) : M A :=
  ret (match r with Some v => v | None => fallthrough end).

Definition get_vram_usage (self : VRAMManager) (w : world) : M float :=
  r <- try_except
         (emit (EvRun nvidia_smi_argv) ;;
          result <- ask (fun h => subprocess_run w h nvidia_smi_argv) ;;
          let '(returncode, stdout) := result in
          if (returncode =? 0) && negb (String.eqb (strip stdout) "") then
            let lines := splitlines (strip stdout) in
            vals <- lift (floats_of w lines) ;;
            ret (Some (py_sum w vals))
          else ret None)
         (fun e =>
            match e with
            | FileNotFoundError => Some (log DEBUG MsgSmiNotFound ;; ret None)
            | _ =>
                if is_Exception e
                then Some (log ERROR (MsgErrorReadingVram e) ;; ret None)
                else None
            end) ;;
  finish r float_zero.

Definition get_loaded_models (self : VRAMManager) (w : world) : M pyval :=
  let url := (ollama_url self ++ "/api/ps")%string in
  r <- try_except
         (emit (EvGet url) ;;
          resp <- ask (fun h => session_get w h url) ;;
          let '(status, body) := resp in
          if status =? 200 then
            data <- lift body ;;
            models <- lift (py_get data "models" (PList [])) ;;
            ret (Some models)
          else ret None)
         (fun e =>
            if is_Exception e
            then Some (log ERROR (MsgCouldNotConnect (ollama_url self) e) ;;
                       ret None)
            else None) ;;
  finish r (PList []).

Definition unload_payload (model_name : pyval) : pyval :=
  PDict [("model", model_name); ("keep_alive", PInt 0)].

Definition unload_model (self : VRAMManager) (w : world)
    (model_name : pyval) : M unit :=
  if dry_run self then log INFO (MsgDryRun model_name)
  else
    log INFO (MsgUnloading model_name) ;;
    try_except
      (let url := (ollama_url self ++ "/api/generate")%string in
       let payload := unload_payload model_name in
       emit (EvPost url payload) ;;
       status <- ask (fun h => session_post w h url payload) ;;
       if status =? 200 then log INFO (MsgUnloaded model_name)
       else log WARNING (MsgUnloadFailed model_name status))
      (fun e =>
         if is_Exception e then Some (log ERROR (MsgErrorUnloading e))
         else None).

(** [await asyncio.sleep(self.interval)]. *)
Definition sleep (self : VRAMManager) (w : world) : M unit :=
  emit (EvSleep (interval self)) ;;
  ask (fun h => asyncio_sleep w h (interval self)).

(** The [for model in loaded] loop shared by [monitor_loop] and [main]. *)
Definition unload_all (self : VRAMManager) (w : world) (loaded : pyval) : M unit :=
  models <- lift (py_iter loaded) ;;
  for_each models (fun model =>
    name <- lift (py_get model "name" PNone) ;;
    unload_model self w name).

(** Lines 99-119 of [monitor_loop]: the [if]/[elif]/[else] on the sample. *)
Definition check_usage (self : VRAMManager) (w : world) (vram_used : float)
    : M unit :=
  if float_eqb vram_used float_zero
     && negb (String.eqb (system self) "Darwin")
  then log DEBUG MsgUnavailable
  else if float_gt_int vram_used (threshold_mb self) then
    log WARNING (MsgHighVram vram_used (threshold_mb self)) ;;
    loaded <- get_loaded_models self w ;;
    if truthy loaded then
      n <- lift (py_len loaded) ;;
      log INFO (MsgFound n) ;;
      unload_all self w loaded
    else log INFO MsgNoOllamaModels
  else log DEBUG (MsgVramOk vram_used).

(** Lines 96-121: the body of the [try] in the loop. *)
Definition tick_body (self : VRAMManager) (w : world) : M unit :=
  vram_used <- get_vram_usage self w ;;
  check_usage self w vram_used ;;
  sleep self w.

Inductive loop_ctl : Type := Continue | Break.

(** One iteration of [while True], with its two [except] clauses. *)
Definition tick (self : VRAMManager) (w : world) : M loop_ctl :=
  try_except
    (tick_body self w ;; ret Continue)
    (fun e =>
       match e with
       | KeyboardInterrupt => Some (log INFO MsgStopping ;; ret Break)
       | _ =>
           if is_Exception e
           then Some (log ERROR (MsgUnexpected e) ;;
                      sleep self w ;;
                      ret Continue)
           else None
       end).

(** [Running]: the loop is still going when the fuel is spent. *)
Inductive loop_state : Type := Running | Stopped.

Fixpoint while_true (self : VRAMManager) (w : world) (fuel : nat)
    : M loop_state :=
  match fuel with
  | O => ret Running
  | S fuel' =>
      c <- tick self w ;;
      match c with
      | Continue => while_true self w fuel'
      | Break => ret Stopped
      end
  end.

Definition monitor_loop (self : VRAMManager) (w : world) (fuel : nat)
    : M loop_state :=
  log INFO MsgGuardActive ;;
  log INFO (MsgThreshold (threshold_mb self)) ;;
  log INFO (MsgInterval (interval self)) ;;
  log INFO (MsgUrl (ollama_url self)) ;;
  while_true self w fuel.

(** The parsed command line. *)
Record args : Type := {
  arg_threshold : Z;
  arg_interval : Z;
  arg_host : string;
  arg_dry_run : bool;
  arg_clear_now : bool
}.

Definition default_args : args :=
  {| arg_threshold := 20480; arg_interval := 5;
     arg_host := "http://localhost:11434";
     arg_dry_run := false; arg_clear_now := false |}.

Definition main (a : args) (w : world) (fuel : nat) : M loop_state :=
  let manager :=
    VRAMManager_init w (arg_threshold a) (arg_host a) (arg_interval a)
      (arg_dry_run a) in
  if arg_clear_now a then
    log INFO MsgManualCleanup ;;
    loaded <- get_loaded_models manager w ;;
    (if truthy loaded then unload_all manager w loaded
     else log INFO MsgNoModelsFound) ;;
    ret Stopped
  else
    try_except (monitor_loop manager w fuel)
      (fun e =>
         match e with
         | KeyboardInterrupt => Some (ret Stopped)
         | _ => None
         end).

(** ** Reading traces *)

Definition is_get (ev : event) : bool :=
  match ev with EvGet _ => true | _ => false end.

Definition is_post (ev : event) : bool :=
  match ev with EvPost _ _ => true | _ => false end.

Definition is_sleep (ev : event) : bool :=
  match ev with EvSleep _ => true | _ => false end.

Definition is_log (ev : event) : bool :=
  match ev with EvLog _ _ => true | _ => false end.

(** An outbound HTTP request. *)
Definition is_network (ev : event) : bool := is_get ev || is_post ev.

(** The name [unload_model] was entered with: its first log line. *)
Definition unload_call (ev : event) : option pyval :=
  match ev with
  | EvLog INFO (MsgDryRun n) | EvLog INFO (MsgUnloading n) => Some n
  | _ => None
  end.

Fixpoint unload_calls (evs : trace) : list pyval :=
  match evs with
  | [] => []
  | ev :: evs' =>
      match unload_call ev with
      | Some n => n :: unload_calls evs'
      | None => unload_calls evs'
      end
  end.

Definition gets (evs : trace) : trace := filter is_get evs.
Definition posts (evs : trace) : trace := filter is_post evs.
Definition sleeps (evs : trace) : trace := filter is_sleep evs.

(** Ticks completed so far: every tick ends with one sleep. *)
Definition ticks (h : trace) : nat := List.length (sleeps h).

(** The events of each tick, cut after each sleep. *)
Fixpoint split_ticks (cur : trace) (evs : trace) : list trace :=
  match evs with
  | [] => match cur with [] => [] | _ => [rev cur] end
  | ev :: evs' =>
      if is_sleep ev then rev (ev :: cur) :: split_ticks [] evs'
      else split_ticks (ev :: cur) evs'
  end.

(** A remediation pass has begun: the service was asked for its models. *)
Definition remediates (evs : trace) : bool := existsb is_get evs.

(** Neither a request to the service nor an entry into [unload_model]. *)
Definition calm (ev : event) : bool :=
  negb (is_get ev) && negb (is_post ev)
  && match unload_call ev with Some _ => false | None => true end.

(** Neither an unload request nor an entry into [unload_model]. *)
Definition no_eviction (ev : event) : bool :=
  negb (is_post ev)
  && match unload_call ev with Some _ => false | None => true end.

(** The same world on another platform. *)
Definition with_platform (w : world) (sys : string) : world :=
  {| platform_system := sys;
     py_float := py_float w; py_sum := py_sum w;
     subprocess_run := subprocess_run w;
     session_get := session_get w;
     session_post := session_post w;
     asyncio_sleep := asyncio_sleep w |}.

(** The same command line with another [--threshold]. *)
Definition with_threshold (a : args) (t : Z) : args :=
  {| arg_threshold := t; arg_interval := arg_interval a;
     arg_host := arg_host a; arg_dry_run := arg_dry_run a;
     arg_clear_now := arg_clear_now a |}.

Definition awake (ev : event) : bool := negb (is_sleep ev).

(** ** Vocabulary of the statements *)

(** Every event [m] adds satisfies [P] and every exception it raises
    satisfies [E], from any history. *)
Definition obeys {A} (P : event -> bool) (E : exn -> bool) (m : M A) : Prop :=
  forall h,
    forallb P (snd (m h)) = true
    /\ forall e, fst (m h) = Raised e -> E e = true.

(** A world whose failures are all ordinary exceptions and whose clock
    works. *)
Record tame (w : world) : Prop := {
  run_tame : forall h argv e,
    subprocess_run w h argv = Raised e -> is_Exception e = true;
  get_tame : forall h url e,
    session_get w h url = Raised e -> is_Exception e = true;
  json_tame : forall h url status e,
    session_get w h url = Returned (status, Raised e) -> is_Exception e = true;
  post_tame : forall h url payload e,
    session_post w h url payload = Raised e -> is_Exception e = true;
  sleep_tame : forall h secs, asyncio_sleep w h secs = Returned tt
}.

(** What the tool answers to the query issued after history [h]. *)
Definition tool_answer (w : world) (h : trace) : outcome (Z * string) :=
  subprocess_run w (h ++ [EvRun nvidia_smi_argv]) nvidia_smi_argv.

(** The ways a measurement can fail. *)
Inductive measurement_failure (w : world) (h : trace) : Prop :=
  | tool_missing :
      tool_answer w h = Raised FileNotFoundError ->
      measurement_failure w h
  | tool_crashed e :
      tool_answer w h = Raised e -> is_Exception e = true ->
      measurement_failure w h
  | nonzero_exit returncode stdout :
      tool_answer w h = Returned (returncode, stdout) -> returncode <> 0 ->
      measurement_failure w h
  | empty_output returncode stdout :
      tool_answer w h = Returned (returncode, stdout) -> strip stdout = "" ->
      measurement_failure w h
  | malformed_output stdout line :
      tool_answer w h = Returned (0, stdout) ->
      In line (splitlines (strip stdout)) -> py_float w line = None ->
      measurement_failure w h.

(** What the service answers to the listing issued after history [h]. *)
Definition ps_answer (self : VRAMManager) (w : world) (h : trace)
    : outcome (Z * outcome pyval) :=
  let url := (ollama_url self ++ "/api/ps")%string in
  session_get w (h ++ [EvGet url]) url.

(** The ways a listing can fail. *)
Inductive listing_failure (self : VRAMManager) (w : world) (h : trace) : Prop :=
  | transport_failure e :
      ps_answer self w h = Raised e -> is_Exception e = true ->
      listing_failure self w h
  | bad_status status body :
      ps_answer self w h = Returned (status, body) -> status <> 200 ->
      listing_failure self w h
  | malformed_body e :
      ps_answer self w h = Returned (200, Raised e) -> is_Exception e = true ->
      listing_failure self w h
  | body_not_object data :
      ps_answer self w h = Returned (200, Returned data) ->
      py_get data "models" (PList []) = Raised AttributeError ->
      listing_failure self w h.

(** What the service answers to the unload request for [model_name]
    issued after history [h]. *)
Definition generate_answer (self : VRAMManager) (w : world)
    (model_name : pyval) (h : trace) : outcome Z :=
  let url := (ollama_url self ++ "/api/generate")%string in
  let payload := unload_payload model_name in
  session_post w ((h ++ [EvLog INFO (MsgUnloading model_name)])
                    ++ [EvPost url payload]) url payload.

(** [P] lets through what every tick does besides remediation: the
    measurement, the sleep, and the log lines that are not an entry into
    [unload_model]. *)
Definition bookkeeping (P : event -> bool) : Prop :=
  P (EvRun nvidia_smi_argv) = true
  /\ (forall secs, P (EvSleep secs) = true)
  /\ (forall lvl msg, unload_call (EvLog lvl msg) = None ->
                      P (EvLog lvl msg) = true).

(** ** A concrete world for examples *)

Definition digit (c : ascii) : option Z :=
  let n := Z.of_N (N_of_ascii c) in
  if (48 <=? n) && (n <=? 57) then Some (n - 48) else None.

Fixpoint decimal_from (acc : Z) (s : string) : option Z :=
  match s with
  | EmptyString => Some acc
  | String c s' =>
      match digit c with
      | Some d => decimal_from (10 * acc + d) s'
      | None => None
      end
  end.

(** [float(str)] on unsigned decimal integers, all that the examples
    feed it; any other text is rejected. *)
Definition decimal_float (s : string) : option float :=
  match s with
  | EmptyString => None
  | _ => option_map float_of_Z (decimal_from 0 s)
  end.

(** [sum] as the left-to-right binary64 sum starting from [0]. *)
Definition sum_left (vs : list float) : float :=
  fold_left (SFadd prec emax) vs float_zero.

Definition nl : string := String (ascii_of_nat 10) EmptyString.

Definition model (name : string) : pyval :=
  PDict [("name", PStr name); ("size_vram", PInt 4096)].

Definition ps_body (models : list pyval) : pyval :=
  PDict [("models", PList models)].

(** A world that tells time by the ticks completed: the tool and the
    listing answer by tick, the unload request by payload; the clock
    works. *)
Definition make_world (sys : string)
    (tool : nat -> outcome (Z * string))
    (ps : nat -> outcome (Z * outcome pyval))
    (generate : pyval -> outcome Z) : world :=
  {| platform_system := sys;
     py_float := decimal_float;
     py_sum := sum_left;
     subprocess_run := fun h _ => tool (ticks h);
     session_get := fun h _ => ps (ticks h);
     session_post := fun _ _ payload => generate payload;
     asyncio_sleep := fun _ _ => Returned tt |}.

Definition listing (models : list pyval) : outcome (Z * outcome pyval) :=
  Returned (200, Returned (ps_body models)).

Definition reading (mb : string) : outcome (Z * string) :=
  Returned (0, (mb ++ nl)%string).

(** Usage 500, 1500, 500 MB over three ticks; two models resident on the
    second tick only. *)
Definition scenario (sys : string) : world :=
  make_world sys
    (fun n => match n with 1%nat => reading "1500" | _ => reading "500" end)
    (fun n => match n with
              | 1%nat => listing [model "A"; model "B"]
              | _ => listing []
              end)
    (fun _ => Returned 200).

(** No [nvidia-smi] and no service. *)
Definition bare_host : world :=
  make_world "Linux"
    (fun _ => Raised FileNotFoundError)
    (fun _ => Raised ClientError)
    (fun _ => Raised ClientError).

(** A Mac: no [nvidia-smi], one model resident. *)
Definition mac_host : world :=
  make_world "Darwin"
    (fun _ => Raised FileNotFoundError)
    (fun _ => listing [model "llama3"])
    (fun _ => Returned 200).

(** Two GPUs and three resident models. *)
Definition busy_host : world :=
  make_world "Linux"
    (fun _ => Returned (0, ("1024" ++ nl ++ "2048" ++ nl)%string))
    (fun _ => listing [model "A"; model "B"; model "C"])
    (fun _ => Returned 200).

(** High usage, a service whose first listing is not a list of objects,
    whose second times out, and whose unload requests never get through. *)
Definition flaky_host : world :=
  make_world "Linux"
    (fun _ => reading "30000")
    (fun n => match n with
              | 0%nat => listing [PStr "llama3"]
              | 1%nat => Raised TimeoutError
              | _ => listing [model "llama3"]
              end)
    (fun _ => Raised ClientError).

Definition localhost : string := "http://localhost:11434".

(** The manager the default command line builds. *)
Definition default_manager (w : world) : VRAMManager :=
  VRAMManager_init w (arg_threshold default_args) (arg_host default_args)
    (arg_interval default_args) (arg_dry_run default_args).

(** A service that answers the listing with HTTP 500 while usage is high. *)
Definition failing_service : world :=
  make_world "Linux" (fun _ => reading "30000")
    (fun _ => Returned (500, Raised ContentTypeError))
    (fun _ => Returned 200).

(** [--clear-now], with or without [--dry-run]. *)
Definition clear_now_args (dry : bool) : args :=
  {| arg_threshold := 20480; arg_interval := 5; arg_host := localhost;
     arg_dry_run := dry; arg_clear_now := true |}.

(** ** Further vocabulary *)

Definition is_run (ev : event) : bool :=
  match ev with EvRun _ => true | _ => false end.

Definition runs (evs : trace) : trace := filter is_run evs.

(** The [elif] branch of the loop is taken for this sample. *)
Definition high_sample (self : VRAMManager) (vram_used : float) : bool :=
  negb (float_eqb vram_used float_zero
        && negb (String.eqb (system self) "Darwin"))
  && float_gt_int vram_used (threshold_mb self).

(** Lines 108-116 of [monitor_loop]: what the [elif] branch does with the
    listing. *)
Definition after_listing (self : VRAMManager) (w : world) (loaded : pyval)
    : M unit :=
  if truthy loaded then
    n <- lift (py_len loaded) ;;
    log INFO (MsgFound n) ;;
    unload_all self w loaded
  else log INFO MsgNoOllamaModels.

(** What a tick can add after [check_usage]: the sleeps and the log lines
    of the two [except] clauses. *)
Definition tail_event (ev : event) : bool :=
  match ev with
  | EvSleep _ => true
  | EvLog INFO MsgStopping => true
  | EvLog ERROR (MsgUnexpected _) => true
  | _ => false
  end.

(** The events a manager is entitled to: the fixed tool command, a GET on
    its own [/api/ps], a POST on its own [/api/generate] carrying a model
    name with [keep_alive = 0], a sleep of its own interval, log lines. *)
Definition well_formed (self : VRAMManager) (ev : event) : Prop :=
  match ev with
  | EvRun argv => argv = nvidia_smi_argv
  | EvGet url => url = (ollama_url self ++ "/api/ps")%string
  | EvPost url payload =>
      url = (ollama_url self ++ "/api/generate")%string
      /\ exists model_name, payload = unload_payload model_name
  | EvSleep seconds => seconds = interval self
  | EvLog _ _ => True
  end.

Fixpoint list_eqb (xs ys : list string) : bool :=
  match xs, ys with
  | [], [] => true
  | x :: xs', y :: ys' => String.eqb x y && list_eqb xs' ys'
  | _, _ => false
  end.

(** [well_formed] as a test. *)
Definition well_formedb (self : VRAMManager) (ev : event) : bool :=
  match ev with
  | EvRun argv => list_eqb argv nvidia_smi_argv
  | EvGet url => String.eqb url (ollama_url self ++ "/api/ps")%string
  | EvPost url (PDict [(k1, _); (k2, PInt 0)]) =>
      String.eqb url (ollama_url self ++ "/api/generate")%string
      && String.eqb k1 "model" && String.eqb k2 "keep_alive"
  | EvPost _ _ => false
  | EvSleep seconds => seconds =? interval self
  | EvLog _ _ => true
  end.

(** The manager [main] builds from the command line. *)
Definition manager_of (a : args) (w : world) : VRAMManager :=
  VRAMManager_init w (arg_threshold a) (arg_host a) (arg_interval a)
    (arg_dry_run a).

(** The same command line with another [--interval]. *)
Definition with_interval (a : args) (i : Z) : args :=
  {| arg_threshold := arg_threshold a; arg_interval := i;
     arg_host := arg_host a; arg_dry_run := arg_dry_run a;
     arg_clear_now := arg_clear_now a |}.

(** The four lines [monitor_loop] logs before its first tick. *)
Definition startup (self : VRAMManager) : trace :=
  [EvLog INFO MsgGuardActive;
   EvLog INFO (MsgThreshold (threshold_mb self));
   EvLog INFO (MsgInterval (interval self));
   EvLog INFO (MsgUrl (ollama_url self))].

(** The same world with another clock. *)
Definition with_sleep (w : world) (clock : trace -> Z -> outcome unit) : world :=
  {| platform_system := platform_system w;
     py_float := py_float w; py_sum := py_sum w;
     subprocess_run := subprocess_run w;
     session_get := session_get w;
     session_post := session_post w;
     asyncio_sleep := clock |}.

(** Every unload request in [evs] comes after a listing request; [listed]
    tells whether one was already seen. *)
Fixpoint listed_first (listed : bool) (evs : trace) : bool :=
  match evs with
  | [] => true
  | EvGet _ :: evs' => listed_first true evs'
  | EvPost _ _ :: evs' => listed && listed_first listed evs'
  | _ :: evs' => listed_first listed evs'
  end.

(** High usage, two resident models, a service that works. *)
Definition hot_host : world :=
  make_world "Linux" (fun _ => reading "30000")
    (fun _ => listing [model "A"; model "B"])
    (fun _ => Returned 200).

(** High usage; the second listed entry is a string, not an object. *)
Definition mixed_host : world :=
  make_world "Linux" (fun _ => reading "30000")
    (fun _ => listing [model "A"; PStr "oops"; model "B"])
    (fun _ => Returned 200).

(** High usage; the service answers [{"models": 5}]. *)
Definition odd_host : world :=
  make_world "Linux" (fun _ => reading "30000")
    (fun _ => Returned (200, Returned (PDict [("models", PInt 5)])))
    (fun _ => Returned 200).

(** A host whose every sleep is cut short by [e]. *)
Definition restless (w : world) (e : exn) : world :=
  with_sleep w (fun _ _ => Raised e).

(** A host whose tool invocation is cut short by [e]. *)
Definition cut_short (e : exn) : world :=
  make_world "Linux" (fun _ => Raised e) (fun _ => listing [])
    (fun _ => Returned 200).

(** ** Running the combinators *)

Lemma bind_returned {A B} (m : M A) (f : A -> M B) h a e1 r e2 :
  m h = (Returned a, e1) ->
  f a (h ++ e1) = (r, e2) ->
  bind m f h = (r, (e1 ++ e2)).
Proof. intros Hm Hf. unfold bind. rewrite Hm, Hf. reflexivity. Qed.

Lemma bind_raised {A B} (m : M A) (f : A -> M B) h x e1 :
  m h = (Raised x, e1) ->
  bind m f h = (Raised x, e1).
Proof. intros Hm. unfold bind. rewrite Hm. reflexivity. Qed.

Lemma try_returned {A} (m : M A) handler h a e1 :
  m h = (Returned a, e1) ->
  try_except m handler h = (Returned a, e1).
Proof. intros Hm. unfold try_except. rewrite Hm. reflexivity. Qed.

Lemma try_caught {A} (m : M A) handler h x e1 k r e2 :
  m h = (Raised x, e1) ->
  handler x = Some k ->
  k (h ++ e1) = (r, e2) ->
  try_except m handler h = (r, (e1 ++ e2)).
Proof. intros Hm Hh Hk. unfold try_except. rewrite Hm, Hh, Hk. reflexivity. Qed.

Lemma try_uncaught {A} (m : M A) handler h x e1 :
  m h = (Raised x, e1) ->
  handler x = None ->
  try_except m handler h = (Raised x, e1).
Proof. intros Hm Hh. unfold try_except. rewrite Hm, Hh. reflexivity. Qed.

(** ** The sample against the threshold *)

Lemma float_eqb_zero_inv (x : float) :
  float_eqb x float_zero = true -> exists s, x = S754_zero s.
Proof.
  destruct x as [s|s| |s m e]; cbn; try discriminate.
  - eauto.
  - destruct s; discriminate.
  - destruct s; discriminate.
Qed.

Lemma zero_gt_int (x : float) (t : Z) :
  float_eqb x float_zero = true -> float_gt_int x t = (t <? 0).
Proof.
  intros H. apply float_eqb_zero_inv in H as [s ->].
  unfold float_gt_int, float_cmp_int.
  destruct (Z.compare_spec 0 t); destruct (Z.ltb_spec t 0); auto; lia.
Qed.

Lemma eq_int_not_gt (x : float) (t : Z) :
  float_eq_int x t = true -> float_gt_int x t = false.
Proof.
  unfold float_eq_int, float_gt_int.
  destruct (float_cmp_int x t) as [[]|]; auto; discriminate.
Qed.

(** [get_loaded_models] always sends its request first; whatever follows
    is a log line. *)
Lemma get_loaded_models_shape self w h :
  exists r rest,
    get_loaded_models self w h = (r, EvGet (ollama_url self ++ "/api/ps")%string :: rest)
    /\ forallb is_log rest = true.
Proof.
  unfold get_loaded_models, bind, try_except, emit, ask, lift, finish, ret, log.
  cbn.
  destruct (session_get w _ _) as [[status body]|e]; cbn.
  - destruct (status =? 200); cbn; [|eauto].
    destruct body as [data|e]; cbn.
    + destruct (py_get data "models" (PList [])) as [v|e]; cbn; [eauto|].
      destruct (is_Exception e); cbn; eauto.
    + destruct (is_Exception e); cbn; eauto.
  - destruct (is_Exception e); cbn; eauto.
Qed.

(** ** Bounding what a computation emits and raises *)


Section Obeys.
Variable P : event -> bool.
Variable E : exn -> bool.

Lemma obeys_ret {A} (a : A) : obeys P E (ret a).
Proof. intros h; split; [reflexivity | discriminate]. Qed.

Lemma obeys_emit ev : P ev = true -> obeys P E (emit ev).
Proof. intros H h; cbn. rewrite H. split; [reflexivity | discriminate]. Qed.

Lemma obeys_lift {A} (o : outcome A) :
  (forall e, o = Raised e -> E e = true) -> obeys P E (lift o).
Proof. intros H h; split; [reflexivity | exact (H)]. Qed.

Lemma obeys_ask {A} (oracle : trace -> outcome A) :
  (forall h e, oracle h = Raised e -> E e = true) -> obeys P E (ask oracle).
Proof. intros H h; split; [reflexivity | exact (H h)]. Qed.

Lemma obeys_bind {A B} (m : M A) (f : A -> M B) :
  obeys P E m -> (forall a, obeys P E (f a)) -> obeys P E (bind m f).
Proof.
  intros Hm Hf h. unfold bind.
  destruct (Hm h) as [Hev Hex].
  destruct (m h) as [[a|x] e1]; cbn in *;
    [|split; [assumption | intros e [= <-]; apply Hex; reflexivity]].
  destruct (Hf a (h ++ e1)) as [Hev' Hex'].
  destruct (f a (h ++ e1)) as [r e2]; cbn in *.
  rewrite forallb_app, Hev, Hev'. split; [reflexivity | assumption].
Qed.

Lemma obeys_try {A} (m : M A) handler :
  obeys P E m ->
  (forall e k, handler e = Some k -> obeys P E k) ->
  obeys P E (try_except m handler).
Proof.
  intros Hm Hk h. unfold try_except.
  destruct (Hm h) as [Hev Hex].
  destruct (m h) as [[a|x] e1]; cbn in *; [split; assumption|].
  destruct (handler x) as [k|] eqn:Hh; cbn; [|split; assumption].
  destruct (Hk x k Hh (h ++ e1)) as [Hev' Hex'].
  destruct (k (h ++ e1)) as [r e2]; cbn in *.
  rewrite forallb_app, Hev, Hev'. split; [reflexivity | assumption].
Qed.

Lemma obeys_for_each {A} (xs : list A) (body : A -> M unit) :
  (forall x, obeys P E (body x)) -> obeys P E (for_each xs body).
Proof.
  intros Hb. induction xs as [|x xs IH]; cbn.
  - apply obeys_ret.
  - apply obeys_bind; auto.
Qed.
End Obeys.

Lemma floats_of_raises w lines e :
  floats_of w lines = Raised e -> e = ValueError.
Proof.
  induction lines as [|l ls IH]; cbn; [discriminate|].
  destruct (py_float w l); [|congruence].
  destruct (floats_of w ls); [discriminate|].
  intros [= <-]. auto.
Qed.

Lemma py_get_raises v k d e : py_get v k d = Raised e -> e = AttributeError.
Proof. destruct v; cbn; congruence. Qed.

Lemma py_len_raises v e : py_len v = Raised e -> e = TypeError.
Proof. destruct v; cbn; congruence. Qed.

Lemma py_iter_raises v e : py_iter v = Raised e -> e = TypeError.
Proof. destruct v; cbn; congruence. Qed.



Lemma sleep_run self w h :
  sleep self w h =
  (asyncio_sleep w (h ++ [EvSleep (interval self)]) (interval self),
   [EvSleep (interval self)]).
Proof. reflexivity. Qed.

Lemma snd_bind_returned {A B} (m : M A) (f : A -> M B) h a e1 :
  m h = (Returned a, e1) ->
  snd (bind m f h) = (e1 ++ snd (f a (h ++ e1))).
Proof.
  intros Hm. unfold bind. rewrite Hm.
  destruct (f a (h ++ e1)); reflexivity.
Qed.

Lemma unload_calls_app e1 e2 :
  unload_calls (e1 ++ e2) = (unload_calls e1 ++ unload_calls e2).
Proof.
  induction e1 as [|ev e1 IH]; cbn; [reflexivity|].
  destruct (unload_call ev); cbn; rewrite IH; reflexivity.
Qed.

Lemma calm_no_remediation evs :
  forallb calm evs = true ->
  gets evs = [] /\ posts evs = [] /\ unload_calls evs = [].
Proof.
  unfold gets, posts.
  induction evs as [|ev evs IH]; cbn; [auto|].
  intros H. apply andb_prop in H as [Hc H].
  destruct (IH H) as (Hg & Hp & Hu).
  unfold calm in Hc.
  destruct (is_get ev), (is_post ev), (unload_call ev); cbn in Hc;
    try discriminate; auto.
Qed.

(** Sampling never touches the service. *)
Lemma get_vram_usage_obeys P E self w :
  P (EvRun nvidia_smi_argv) = true ->
  P (EvLog DEBUG MsgSmiNotFound) = true ->
  (forall e, P (EvLog ERROR (MsgErrorReadingVram e)) = true) ->
  (forall h e, subprocess_run w h nvidia_smi_argv = Raised e -> E e = true) ->
  (E ValueError = true) ->
  obeys P E (get_vram_usage self w).
Proof.
  intros Hrun Hdbg Herr Hsub Hval. unfold get_vram_usage.
  apply obeys_bind; [|intros r; apply obeys_ret].
  apply obeys_try.
  - apply obeys_bind; [apply obeys_emit; exact Hrun|intros _].
    apply obeys_bind; [apply obeys_ask; exact Hsub|intros [rc out]].
    destruct (_ && _); [|apply obeys_ret].
    apply obeys_bind; [|intros vs; apply obeys_ret].
    apply obeys_lift. intros e He. apply floats_of_raises in He. subst e.
    exact Hval.
  - intros e k Hk.
    destruct e; cbn in Hk; inversion Hk; subst k;
      (apply obeys_bind; [apply obeys_emit; unfold log; auto
                         |intros _; apply obeys_ret]).
Qed.

Lemma check_usage_low self w s h :
  float_gt_int s (threshold_mb self) = false ->
  exists msg, check_usage self w s h = (Returned tt, [EvLog DEBUG msg]).
Proof.
  intros Hgt. unfold check_usage. rewrite Hgt.
  destruct (_ && _); eexists; reflexivity.
Qed.

Lemma check_usage_unavailable self w s h :
  float_eqb s float_zero = true ->
  system self <> "Darwin" ->
  check_usage self w s h = (Returned tt, [EvLog DEBUG MsgUnavailable]).
Proof.
  intros Hz Hsys. unfold check_usage. rewrite Hz.
  apply String.eqb_neq in Hsys. rewrite Hsys. reflexivity.
Qed.

Lemma check_usage_high self w s h :
  float_eqb s float_zero && negb (String.eqb (system self) "Darwin") = false ->
  float_gt_int s (threshold_mb self) = true ->
  remediates (snd (check_usage self w s h)) = true.
Proof.
  intros Hz Hgt. unfold check_usage. rewrite Hz, Hgt.
  rewrite (snd_bind_returned _ _ _ tt [EvLog WARNING (MsgHighVram s (threshold_mb self))])
    by reflexivity.
  destruct (get_loaded_models_shape self w
              (h ++ [EvLog WARNING (MsgHighVram s (threshold_mb self))]))
    as (r & rest & Hg & _).
  destruct r as [loaded|e].
  - rewrite (snd_bind_returned _ _ _ _ _ Hg). reflexivity.
  - rewrite (bind_raised _ _ _ _ _ Hg). reflexivity.
Qed.

Lemma guard_needs_negative self s :
  0 <= threshold_mb self \/ system self = "Darwin"
    \/ float_eqb s float_zero = false ->
  float_gt_int s (threshold_mb self) = true ->
  float_eqb s float_zero && negb (String.eqb (system self) "Darwin") = false.
Proof.
  intros Hdom Hgt.
  destruct (float_eqb s float_zero) eqn:Hz; [|reflexivity].
  rewrite (zero_gt_int _ _ Hz) in Hgt. apply Z.ltb_lt in Hgt.
  destruct Hdom as [H|[H|H]]; [lia| |discriminate].
  rewrite H. reflexivity.
Qed.

(** C2 (amended): when the threshold is not negative (or the platform is
    Darwin, or the sample is not zero), a sample starts a remediation pass
    exactly when it is strictly above the threshold; a sample equal to the
    threshold never starts one. *)
Theorem policy_triggers_iff_above self w s h :
  0 <= threshold_mb self \/ system self = "Darwin"
    \/ float_eqb s float_zero = false ->
  (remediates (snd (check_usage self w s h)) = true
   <-> float_gt_int s (threshold_mb self) = true)
  /\ (float_eq_int s (threshold_mb self) = true ->
      remediates (snd (check_usage self w s h)) = false).
Proof.
  intros Hdom.
  assert (Hlow : float_gt_int s (threshold_mb self) = false ->
                 remediates (snd (check_usage self w s h)) = false).
  { intros Hgt. destruct (check_usage_low self w s h Hgt) as [msg ->].
    reflexivity. }
  split; [split|].
  - intros Hrem. destruct (float_gt_int s (threshold_mb self)) eqn:Hgt; auto.
    rewrite Hlow in Hrem by reflexivity. discriminate.
  - intros Hgt. apply check_usage_high; auto using guard_needs_negative.
  - intros Heq. apply Hlow, eq_int_not_gt, Heq.
Qed.

Lemma obeys_sleep P E self w :
  (forall secs, P (EvSleep secs) = true) ->
  (forall h secs e, asyncio_sleep w h secs = Raised e -> E e = true) ->
  obeys P E (sleep self w).
Proof.
  intros HP HE. unfold sleep.
  apply obeys_bind; [apply obeys_emit, HP|intros _].
  apply obeys_ask. intros h e. apply HE.
Qed.

Lemma bookkeeping_calm : bookkeeping calm.
Proof.
  repeat split; try reflexivity.
  intros lvl msg H. unfold calm. rewrite H. reflexivity.
Qed.

Lemma bookkeeping_no_eviction : bookkeeping no_eviction.
Proof.
  repeat split; try reflexivity.
  intros lvl msg H. unfold no_eviction. rewrite H. reflexivity.
Qed.

(** Once the sample is taken and [check_usage] has returned, what the
    rest of the tick adds is bookkeeping, whatever the clock does. *)
Lemma tick_events P self w h v e1 e2 :
  bookkeeping P ->
  get_vram_usage self w h = (Returned v, e1) ->
  check_usage self w v (h ++ e1) = (Returned tt, e2) ->
  forallb P e2 = true ->
  forallb P (snd (tick self w h)) = true.
Proof.
  intros (Hrun & Hsleep & Hlog) Hs Hc He2.
  assert (He1 : forallb P e1 = true).
  { pose proof (get_vram_usage_obeys P (fun _ => true) self w) as H.
    destruct (H Hrun (Hlog DEBUG MsgSmiNotFound eq_refl)
                (fun e => Hlog ERROR (MsgErrorReadingVram e) eq_refl)
                (fun _ _ _ => eq_refl) eq_refl h) as [Hev _].
    rewrite Hs in Hev. exact Hev. }
  pose proof (Hlog INFO MsgStopping eq_refl) as Hstop.
  assert (Hunexp : forall e, P (EvLog ERROR (MsgUnexpected e)) = true)
    by (intros e; apply Hlog; reflexivity).
  unfold tick, tick_body, try_except, bind.
  rewrite Hs, Hc, sleep_run.
  destruct (asyncio_sleep w _ _) as [[]|e]; cbn -[sleep].
  - rewrite !forallb_app, He1, He2. cbn. rewrite Hsleep. reflexivity.
  - destruct e; cbn -[sleep];
      try (rewrite !forallb_app, He1, He2; cbn;
           rewrite ?Hsleep, ?Hstop; reflexivity);
      rewrite sleep_run; destruct (asyncio_sleep w _ _) as [[]|e']; cbn;
      rewrite !forallb_app, He1, He2; cbn;
      rewrite ?Hsleep, ?Hunexp; reflexivity.
Qed.

Lemma tick_calm self w h v e1 msg :
  get_vram_usage self w h = (Returned v, e1) ->
  check_usage self w v (h ++ e1) = (Returned tt, [EvLog DEBUG msg]) ->
  forallb calm (snd (tick self w h)) = true.
Proof.
  intros Hs Hc.
  exact (tick_events calm self w h v e1 _ bookkeeping_calm Hs Hc eq_refl).
Qed.

(** C3 (amended): when the threshold is not negative (zero included), or
    on any platform other than Darwin, a tick whose sample is zero lists
    no models, sends no unload request and never enters [unload_model]. *)
Theorem zero_sample_never_remediates self w h v e1 :
  0 <= threshold_mb self \/ system self <> "Darwin" ->
  get_vram_usage self w h = (Returned v, e1) ->
  float_eqb v float_zero = true ->
  gets (snd (tick self w h)) = []
  /\ posts (snd (tick self w h)) = []
  /\ unload_calls (snd (tick self w h)) = [].
Proof.
  intros Hdom Hs Hz. apply calm_no_remediation.
  destruct Hdom as [Hpos|Hsys].
  - assert (Hgt : float_gt_int v (threshold_mb self) = false).
    { rewrite (zero_gt_int _ _ Hz). apply Z.ltb_ge. exact Hpos. }
    destruct (check_usage_low self w v (h ++ e1) Hgt) as [msg Hc].
    exact (tick_calm self w h v e1 msg Hs Hc).
  - exact (tick_calm self w h v e1 _ Hs
             (check_usage_unavailable self w v (h ++ e1) Hz Hsys)).
Qed.

(** C10: for a positive threshold and any sample, two runs that differ
    only in [platform.system()] decide alike whether to remediate; they
    return the same outcome and differ at most in their log lines. *)
Theorem platform_does_not_change_decision
    (w : world) (threshold interval : Z) (url : string) (dry : bool)
    (sys1 sys2 : string) (s : float) (h : trace) :
  0 < threshold ->
  let w1 := with_platform w sys1 in
  let w2 := with_platform w sys2 in
  let run1 := check_usage (VRAMManager_init w1 threshold url interval dry) w1 s h in
  let run2 := check_usage (VRAMManager_init w2 threshold url interval dry) w2 s h in
  remediates (snd run1) = remediates (snd run2)
  /\ fst run1 = fst run2
  /\ filter (fun ev => negb (is_log ev)) (snd run1)
     = filter (fun ev => negb (is_log ev)) (snd run2).
Proof.
  intros Hpos w1 w2 run1 run2. subst run1 run2.
  destruct (float_gt_int s threshold) eqn:Hgt.
  - assert (Hnz : float_eqb s float_zero = false).
    { destruct (float_eqb s float_zero) eqn:Hz; [|reflexivity].
      rewrite (zero_gt_int _ _ Hz) in Hgt. apply Z.ltb_lt in Hgt. lia. }
    assert (Heq : check_usage (VRAMManager_init w1 threshold url interval dry) w1 s h
                  = check_usage (VRAMManager_init w2 threshold url interval dry) w2 s h).
    { unfold check_usage. cbn [system threshold_mb VRAMManager_init].
      rewrite Hnz, Hgt. reflexivity. }
    rewrite Heq. auto.
  - destruct (check_usage_low (VRAMManager_init w1 threshold url interval dry)
                w1 s h Hgt) as [m1 ->].
    destruct (check_usage_low (VRAMManager_init w2 threshold url interval dry)
                w2 s h Hgt) as [m2 ->].
    auto.
Qed.

(** C7: under dry-run, [unload_model] returns normally for any model name
    after a single log line: no request leaves the process. *)
Theorem dry_run_unload_is_local self w model_name h :
  dry_run self = true ->
  fst (unload_model self w model_name h) = Returned tt
  /\ filter is_network (snd (unload_model self w model_name h)) = []
  /\ snd (unload_model self w model_name h) = [EvLog INFO (MsgDryRun model_name)].
Proof.
  intros Hdry. unfold unload_model. rewrite Hdry. cbn. auto.
Qed.

(** ** Sampling *)

Lemma floats_of_malformed w lines line :
  In line lines -> py_float w line = None ->
  floats_of w lines = Raised ValueError.
Proof.
  induction lines as [|l ls IH]; cbn; [tauto|].
  intros [->|Hin] Hnone.
  - rewrite Hnone. reflexivity.
  - destruct (py_float w l); [|reflexivity].
    rewrite (IH Hin Hnone). reflexivity.
Qed.

Lemma floats_of_numeric w lines vals :
  Forall2 (fun line v => py_float w line = Some v) lines vals ->
  floats_of w lines = Returned vals.
Proof.
  induction 1 as [|l v ls vs Hl _ IH]; cbn; [reflexivity|].
  rewrite Hl, IH. reflexivity.
Qed.

(** [get_vram_usage] as a function of the tool's answer. *)
Lemma get_vram_usage_run self w h :
  get_vram_usage self w h =
  match tool_answer w h with
  | Returned (returncode, stdout) =>
      if (returncode =? 0) && negb (String.eqb (strip stdout) "") then
        match floats_of w (splitlines (strip stdout)) with
        | Returned vals => (Returned (py_sum w vals), [EvRun nvidia_smi_argv])
        | Raised e =>
            (Returned float_zero,
             [EvRun nvidia_smi_argv; EvLog ERROR (MsgErrorReadingVram e)])
        end
      else (Returned float_zero, [EvRun nvidia_smi_argv])
  | Raised FileNotFoundError =>
      (Returned float_zero,
       [EvRun nvidia_smi_argv; EvLog DEBUG MsgSmiNotFound])
  | Raised e =>
      if is_Exception e
      then (Returned float_zero,
            [EvRun nvidia_smi_argv; EvLog ERROR (MsgErrorReadingVram e)])
      else (Raised e, [EvRun nvidia_smi_argv])
  end.
Proof.
  unfold get_vram_usage, tool_answer, bind, try_except, emit, ask, lift, finish,
    ret, log.
  cbn.
  destruct (subprocess_run w _ _) as [[rc out]|e]; cbn.
  - destruct (_ && _); cbn; [|reflexivity].
    destruct (floats_of w _) as [vals|e] eqn:Hf; cbn; [reflexivity|].
    apply floats_of_raises in Hf. subst e. reflexivity.
  - destruct e; reflexivity.
Qed.

(** C4: whenever the measurement fails (tool missing or crashing with an
    ordinary exception, non-zero exit code, empty output, a line that is
    not a number), [get_vram_usage] returns [0.0] instead of raising. *)
Theorem get_vram_usage_failure_is_zero self w h :
  measurement_failure w h ->
  fst (get_vram_usage self w h) = Returned float_zero.
Proof.
  intros Hfail. rewrite get_vram_usage_run.
  destruct Hfail as [Ha|e Ha He|rc out Ha Hrc|rc out Ha Hout|out line Ha Hin Hbad];
    rewrite Ha.
  - reflexivity.
  - destruct e; try discriminate He; reflexivity.
  - apply Z.eqb_neq in Hrc. rewrite Hrc. reflexivity.
  - rewrite Hout, andb_false_r. reflexivity.
  - rewrite (floats_of_malformed _ _ _ Hin Hbad).
    destruct (_ && _); reflexivity.
Qed.


(** ** Listing *)

Lemma get_loaded_models_run self w h :
  let url := (ollama_url self ++ "/api/ps")%string in
  let failed e := (Returned (PList []),
                   [EvGet url; EvLog ERROR (MsgCouldNotConnect (ollama_url self) e)]) in
  get_loaded_models self w h =
  match ps_answer self w h with
  | Returned (status, body) =>
      if status =? 200 then
        match body with
        | Returned data =>
            match py_get data "models" (PList []) with
            | Returned models => (Returned models, [EvGet url])
            | Raised e => failed e
            end
        | Raised e =>
            if is_Exception e then failed e else (Raised e, [EvGet url])
        end
      else (Returned (PList []), [EvGet url])
  | Raised e => if is_Exception e then failed e else (Raised e, [EvGet url])
  end.
Proof.
  unfold get_loaded_models, ps_answer, bind, try_except, emit, ask, lift,
    finish, ret, log.
  cbn.
  destruct (session_get w _ _) as [[status body]|e]; cbn.
  - destruct (status =? 200); cbn; [|reflexivity].
    destruct body as [data|e]; cbn.
    + destruct (py_get data "models" (PList [])) as [v|e] eqn:Hg; cbn;
        [reflexivity|].
      apply py_get_raises in Hg. subst e. reflexivity.
    + destruct (is_Exception e); reflexivity.
  - destruct (is_Exception e); reflexivity.
Qed.

Lemma get_loaded_models_failure self w h :
  listing_failure self w h ->
  fst (get_loaded_models self w h) = Returned (PList []).
Proof.
  intros Hfail. rewrite get_loaded_models_run.
  destruct Hfail as [e Ha He|status body Ha Hst|e Ha He|data Ha Hget];
    rewrite Ha; cbn.
  - rewrite He. reflexivity.
  - apply Z.eqb_neq in Hst. rewrite Hst. reflexivity.
  - rewrite He. reflexivity.
  - rewrite Hget. reflexivity.
Qed.

Lemma get_loaded_models_no_eviction self w h :
  forallb no_eviction (snd (get_loaded_models self w h)) = true.
Proof.
  rewrite get_loaded_models_run.
  destruct (ps_answer self w h) as [[status body]|e].
  - destruct (status =? 200); [|reflexivity].
    destruct body as [data|e].
    + destruct (py_get data "models" (PList [])); reflexivity.
    + destruct (is_Exception e); reflexivity.
  - destruct (is_Exception e); reflexivity.
Qed.

(** With nothing listed, [check_usage] returns without evicting. *)
Lemma check_usage_nothing_listed self w s h :
  fst (get_loaded_models self w
         (h ++ [EvLog WARNING (MsgHighVram s (threshold_mb self))]))
    = Returned (PList []) ->
  exists evs,
    check_usage self w s h = (Returned tt, evs)
    /\ forallb no_eviction evs = true.
Proof.
  intros Hempty. unfold check_usage.
  destruct (_ && _); [eexists; split; reflexivity|].
  destruct (float_gt_int s (threshold_mb self));
    [|eexists; split; reflexivity].
  pose proof (get_loaded_models_no_eviction self w
                (h ++ [EvLog WARNING (MsgHighVram s (threshold_mb self))]))
    as Hquiet.
  destruct (get_loaded_models self w _) as [r eg] eqn:Hg.
  cbn in Hempty, Hquiet. subst r.
  eexists. split.
  - eapply bind_returned; [reflexivity|].
    eapply bind_returned; [exact Hg|]. reflexivity.
  - cbn. rewrite forallb_app, Hquiet. reflexivity.
Qed.

(** C5: on a transport failure, a status other than 200 or a body that
    does not decode to an object, [get_loaded_models] returns the empty
    list; and a tick whose listing would be empty sends no unload request
    and never enters [unload_model], whatever the sample. *)
Theorem listing_failure_means_no_eviction self w :
  (forall h, listing_failure self w h ->
             fst (get_loaded_models self w h) = Returned (PList []))
  /\ (forall h v e1,
        get_vram_usage self w h = (Returned v, e1) ->
        fst (get_loaded_models self w
               ((h ++ e1) ++ [EvLog WARNING (MsgHighVram v (threshold_mb self))]))
          = Returned (PList []) ->
        posts (snd (tick self w h)) = []
        /\ unload_calls (snd (tick self w h)) = []).
Proof.
  split; [apply get_loaded_models_failure|].
  intros h v e1 Hs Hempty.
  destruct (check_usage_nothing_listed self w v (h ++ e1) Hempty)
    as (e2 & Hc & He2).
  pose proof (tick_events no_eviction self w h v e1 e2
                bookkeeping_no_eviction Hs Hc He2) as Hall.
  clear - Hall. unfold posts.
  induction (snd (tick self w h)) as [|ev evs IH]; [auto|].
  cbn in Hall. apply andb_prop in Hall as [Hev Hall].
  destruct (IH Hall) as [Hp Hu]. unfold no_eviction in Hev. cbn.
  destruct (is_post ev), (unload_call ev); cbn in Hev; try discriminate; auto.
Qed.

(** ** Unloading *)

Lemma unload_model_run self w model_name h :
  let url := (ollama_url self ++ "/api/generate")%string in
  let sent := [EvLog INFO (MsgUnloading model_name);
               EvPost url (unload_payload model_name)] in
  unload_model self w model_name h =
  if dry_run self then (Returned tt, [EvLog INFO (MsgDryRun model_name)])
  else
    match generate_answer self w model_name h with
    | Returned status =>
        (Returned tt,
         sent ++ [if status =? 200 then EvLog INFO (MsgUnloaded model_name)
                  else EvLog WARNING (MsgUnloadFailed model_name status)])
    | Raised e =>
        if is_Exception e
        then (Returned tt, sent ++ [EvLog ERROR (MsgErrorUnloading e)])
        else (Raised e, sent)
    end.
Proof.
  unfold unload_model, generate_answer, bind, try_except, emit, ask, log.
  cbn.
  destruct (dry_run self); [reflexivity|]. cbn.
  destruct (session_post w _ _ _) as [status|e]; cbn.
  - destruct (status =? 200); reflexivity.
  - destruct (is_Exception e); reflexivity.
Qed.

(** One call of [unload_model] on a service that fails only in ordinary
    ways: it returns, and sends its request unless in dry-run. *)
Lemma unload_model_once self w model_name h :
  (forall h' url payload e,
     session_post w h' url payload = Raised e -> is_Exception e = true) ->
  exists evs,
    unload_model self w model_name h = (Returned tt, evs)
    /\ unload_calls evs = [model_name]
    /\ posts evs =
       (if dry_run self then []
        else [EvPost (ollama_url self ++ "/api/generate")%string
                     (unload_payload model_name)])
    /\ gets evs = [].
Proof.
  intros Hpost. rewrite unload_model_run.
  destruct (dry_run self); [eexists; repeat split; reflexivity|].
  destruct (generate_answer self w model_name h) as [status|e] eqn:Ha.
  - destruct (status =? 200); eexists; repeat split; reflexivity.
  - unfold generate_answer in Ha. rewrite (Hpost _ _ _ _ Ha).
    eexists; repeat split; reflexivity.
Qed.

Lemma for_each_unload self w models names h :
  (forall h' url payload e,
     session_post w h' url payload = Raised e -> is_Exception e = true) ->
  Forall2 (fun model name => py_get model "name" PNone = Returned name)
    models names ->
  exists evs,
    for_each models
      (fun model => bind (lift (py_get model "name" PNone))
                      (fun name => unload_model self w name)) h
      = (Returned tt, evs)
    /\ unload_calls evs = names
    /\ posts evs =
       (if dry_run self then []
        else map (fun name => EvPost (ollama_url self ++ "/api/generate")%string
                                (unload_payload name)) names)
    /\ gets evs = [].
Proof.
  intros Hpost Hnames. revert h.
  induction Hnames as [|model name models names Hname _ IH]; intros h.
  - exists []. cbn. destruct (dry_run self); auto.
  - destruct (unload_model_once self w name (h ++ []) Hpost)
      as (e1 & Hrun & Hcalls & Hposts & Hgets).
    destruct (IH (h ++ ([] ++ e1))) as (e2 & Hrest & Hcalls2 & Hposts2 & Hgets2).
    exists (([] ++ e1) ++ e2). split; [|split; [|split]].
    + cbn [for_each]. eapply bind_returned; [|exact Hrest].
      eapply bind_returned; [unfold lift; rewrite Hname; reflexivity|].
      exact Hrun.
    + cbn. rewrite unload_calls_app, Hcalls, Hcalls2. reflexivity.
    + cbn. unfold posts in *. rewrite filter_app, Hposts, Hposts2.
      destruct (dry_run self); reflexivity.
    + cbn. unfold gets in *. rewrite filter_app, Hgets, Hgets2. reflexivity.
Qed.

(** C6 (amended): in one-shot mode the service is asked for its models
    once, the threshold has no influence, and [unload_model] is entered
    once per listed model, in the listed order; with dry-run off this
    sends exactly one request per model, in that order, each carrying the
    model's name and [keep_alive = 0]; with dry-run on none is sent. *)
Theorem clear_now_unloads_in_order a w fuel h data models names :
  let self := VRAMManager_init w (arg_threshold a) (arg_host a)
                (arg_interval a) (arg_dry_run a) in
  let run := main a w fuel h in
  arg_clear_now a = true ->
  ps_answer self w (h ++ [EvLog INFO MsgManualCleanup])
    = Returned (200, Returned data) ->
  py_get data "models" (PList []) = Returned (PList models) ->
  Forall2 (fun model name => py_get model "name" PNone = Returned name)
    models names ->
  (forall h' url payload e,
     session_post w h' url payload = Raised e -> is_Exception e = true) ->
  fst run = Returned Stopped
  /\ gets (snd run) = [EvGet (arg_host a ++ "/api/ps")%string]
  /\ unload_calls (snd run) = names
  /\ posts (snd run) =
     (if arg_dry_run a then []
      else map (fun name => EvPost (arg_host a ++ "/api/generate")%string
                              (unload_payload name)) names)
  /\ forall t, main (with_threshold a t) w fuel h = run.
Proof.
  intros self run Hclear Hps Hmodels Hnames Hpost.
  assert (Hlist : get_loaded_models self w (h ++ [EvLog INFO MsgManualCleanup])
                  = (Returned (PList models),
                     [EvGet (arg_host a ++ "/api/ps")%string])).
  { rewrite get_loaded_models_run, Hps. cbn. rewrite Hmodels. reflexivity. }
  assert (Hbody : exists evs,
             (if truthy (PList models) then unload_all self w (PList models)
              else log INFO MsgNoModelsFound)
               ((h ++ [EvLog INFO MsgManualCleanup])
                  ++ [EvGet (arg_host a ++ "/api/ps")%string])
             = (Returned tt, evs)
             /\ unload_calls evs = names
             /\ posts evs =
                (if arg_dry_run a then []
                 else map (fun name =>
                             EvPost (arg_host a ++ "/api/generate")%string
                               (unload_payload name)) names)
             /\ gets evs = []).
  { destruct models as [|m ms].
    - inversion Hnames; subst. eexists. cbn.
      destruct (arg_dry_run a); repeat split; reflexivity.
    - cbn [truthy]. unfold unload_all.
      destruct (for_each_unload self w (m :: ms) names
                  (((h ++ [EvLog INFO MsgManualCleanup])
                      ++ [EvGet (arg_host a ++ "/api/ps")%string]) ++ [])
                  Hpost Hnames)
        as (evs & Hrun & Hcalls & Hposts & Hgets).
      exists ([] ++ evs). split; [|cbn; auto].
      eapply bind_returned; [reflexivity|exact Hrun]. }
  destruct Hbody as (evs & Hrun & Hcalls & Hposts & Hgets).
  assert (Hmain : run = (Returned Stopped,
                         [EvLog INFO MsgManualCleanup]
                           ++ [EvGet (arg_host a ++ "/api/ps")%string]
                           ++ evs ++ [])).
  { subst run. unfold main. rewrite Hclear.
    eapply bind_returned; [reflexivity|].
    eapply bind_returned; [exact Hlist|].
    eapply bind_returned; [exact Hrun|]. reflexivity. }
  split; [rewrite Hmain; reflexivity|].
  split; [rewrite Hmain; cbn; unfold gets in *;
          rewrite filter_app, Hgets; reflexivity|].
  split; [rewrite Hmain; cbn; rewrite unload_calls_app, Hcalls;
          apply app_nil_r|].
  split; [rewrite Hmain; cbn; unfold posts in *;
          rewrite filter_app, Hposts; apply app_nil_r|].
  intros t. subst run. unfold main. cbn [arg_clear_now with_threshold].
  rewrite Hclear. reflexivity.
Qed.

(** ** The loop *)

Lemma awake_no_sleeps evs : forallb awake evs = true -> sleeps evs = [].
Proof.
  unfold sleeps, awake.
  induction evs as [|ev evs IH]; cbn; [reflexivity|].
  intros H. apply andb_prop in H as [Hev H].
  destruct (is_sleep ev); [discriminate|auto].
Qed.

Section TameWorld.
Variable self : VRAMManager.
Variable w : world.
Hypothesis Hw : tame w.

Lemma get_vram_usage_tame : obeys awake is_Exception (get_vram_usage self w).
Proof.
  apply get_vram_usage_obeys; try reflexivity.
  intros h e. apply (run_tame w Hw).
Qed.

Lemma get_loaded_models_tame :
  obeys awake is_Exception (get_loaded_models self w).
Proof.
  intros h. rewrite get_loaded_models_run.
  destruct (ps_answer self w h) as [[status body]|e] eqn:Ha.
  - destruct (status =? 200); [|split; [reflexivity|discriminate]].
    destruct body as [data|e].
    + destruct (py_get data "models" (PList []));
        split; try reflexivity; discriminate.
    + unfold ps_answer in Ha. rewrite (json_tame w Hw _ _ _ _ Ha).
      split; [reflexivity|discriminate].
  - unfold ps_answer in Ha. rewrite (get_tame w Hw _ _ _ Ha).
    split; [reflexivity|discriminate].
Qed.

Lemma unload_model_tame model_name :
  obeys awake is_Exception (unload_model self w model_name).
Proof.
  intros h. rewrite unload_model_run.
  destruct (dry_run self); [split; [reflexivity|discriminate]|].
  destruct (generate_answer self w model_name h) as [status|e] eqn:Ha.
  - destruct (status =? 200); split; try reflexivity; discriminate.
  - unfold generate_answer in Ha. rewrite (post_tame w Hw _ _ _ _ Ha).
    split; [reflexivity|discriminate].
Qed.

Lemma unload_all_tame loaded :
  obeys awake is_Exception (unload_all self w loaded).
Proof.
  unfold unload_all. apply obeys_bind.
  - apply obeys_lift. intros e He. apply py_iter_raises in He. now subst.
  - intros models. apply obeys_for_each. intros model. apply obeys_bind.
    + apply obeys_lift. intros e He. apply py_get_raises in He. now subst.
    + apply unload_model_tame.
Qed.

Lemma check_usage_tame vram_used :
  obeys awake is_Exception (check_usage self w vram_used).
Proof.
  unfold check_usage.
  destruct (_ && _); [apply obeys_emit; reflexivity|].
  destruct (float_gt_int _ _); [|apply obeys_emit; reflexivity].
  apply obeys_bind; [apply obeys_emit; reflexivity|intros _].
  apply obeys_bind; [apply get_loaded_models_tame|intros loaded].
  destruct (truthy loaded); [|apply obeys_emit; reflexivity].
  apply obeys_bind.
  - apply obeys_lift. intros e He. apply py_len_raises in He. now subst.
  - intros n. apply obeys_bind; [apply obeys_emit; reflexivity|intros _].
    apply unload_all_tame.
Qed.

(** What the [except Exception] clause does with an ordinary exception. *)
Lemma tick_handler_run e h :
  is_Exception e = true ->
  bind (log ERROR (MsgUnexpected e))
    (fun _ => bind (sleep self w) (fun _ => ret Continue)) h
  = (Returned Continue,
     [EvLog ERROR (MsgUnexpected e); EvSleep (interval self)]).
Proof.
  intros _. unfold bind, log, emit, ret. rewrite sleep_run.
  rewrite (sleep_tame w Hw). reflexivity.
Qed.

(** The sample and the reaction to it: the part of [tick_body] before
    the sleep. *)
Lemma tick_body_run h :
  exists (r : outcome unit) evs,
    forallb awake evs = true
    /\ match r with
       | Returned _ =>
           tick_body self w h = (Returned tt, evs ++ [EvSleep (interval self)])
       | Raised e => tick_body self w h = (Raised e, evs)
                     /\ is_Exception e = true
       end.
Proof.
  unfold tick_body, bind.
  destruct (get_vram_usage_tame h) as [He1 Hx1].
  destruct (get_vram_usage self w h) as [[v|e] e1]; cbn in He1, Hx1.
  - destruct (check_usage_tame v (h ++ e1)) as [He2 Hx2].
    destruct (check_usage self w v (h ++ e1)) as [[[]|e] e2];
      cbn in He2, Hx2.
    + exists (Returned tt), (e1 ++ e2). split.
      * rewrite forallb_app, He1, He2. reflexivity.
      * rewrite sleep_run, (sleep_tame w Hw). rewrite app_assoc.
        reflexivity.
    + exists (Raised e), (e1 ++ e2). split.
      * rewrite forallb_app, He1, He2. reflexivity.
      * auto.
  - exists (Raised e), e1. auto.
Qed.

Lemma tick_caught h e evs :
  tick_body self w h = (Raised e, evs) ->
  is_Exception e = true ->
  tick self w h =
  (Returned Continue,
   evs ++ [EvLog ERROR (MsgUnexpected e); EvSleep (interval self)]).
Proof.
  intros Hbody He. unfold tick.
  eapply try_caught.
  - apply bind_raised. exact Hbody.
  - destruct e; try discriminate He; reflexivity.
  - apply tick_handler_run, He.
Qed.

Lemma tick_survives h :
  exists evs,
    tick self w h = (Returned Continue, evs ++ [EvSleep (interval self)])
    /\ sleeps evs = [].
Proof.
  destruct (tick_body_run h) as (r & evs & Hawake & Hrun).
  destruct r as [[]|e].
  - exists evs. split; [|apply awake_no_sleeps, Hawake].
    unfold tick. apply try_returned.
    erewrite bind_returned; [|exact Hrun|reflexivity].
    rewrite app_nil_r. reflexivity.
  - destruct Hrun as [Hrun He].
    exists (evs ++ [EvLog ERROR (MsgUnexpected e)]). split.
    + rewrite (tick_caught h e evs Hrun He), <- app_assoc. reflexivity.
    + unfold sleeps. rewrite filter_app.
      fold (sleeps evs). rewrite (awake_no_sleeps _ Hawake). reflexivity.
Qed.

Lemma while_true_runs fuel h :
  exists evs,
    while_true self w fuel h = (Returned Running, evs)
    /\ sleeps evs = repeat (EvSleep (interval self)) fuel.
Proof.
  revert h. induction fuel as [|fuel IH]; intros h.
  - exists []. split; reflexivity.
  - destruct (tick_survives h) as (e1 & Htick & Hs1).
    destruct (IH (h ++ e1 ++ [EvSleep (interval self)])) as (e2 & Hrest & Hs2).
    exists ((e1 ++ [EvSleep (interval self)]) ++ e2). split.
    + cbn [while_true]. eapply bind_returned; [exact Htick|exact Hrest].
    + unfold sleeps in *. rewrite !filter_app, Hs1, Hs2. reflexivity.
Qed.

End TameWorld.

(** ** The statements at concrete inputs *)

Lemma make_world_tame sys tool ps generate :
  (forall n e, tool n = Raised e -> is_Exception e = true) ->
  (forall n e, ps n = Raised e -> is_Exception e = true) ->
  (forall n status e, ps n = Returned (status, Raised e) ->
                      is_Exception e = true) ->
  (forall p e, generate p = Raised e -> is_Exception e = true) ->
  tame (make_world sys tool ps generate).
Proof.
  intros Htool Hps Hjson Hgen.
  constructor; cbn; intros; eauto.
Qed.

Lemma flaky_host_tame : tame flaky_host.
Proof.
  apply make_world_tame.
  - intros n e. discriminate.
  - intros [|[|n]] e; cbn; try discriminate. intros [= <-]. reflexivity.
  - intros [|[|n]] status e; discriminate.
  - intros p e [= <-]. reflexivity.
Qed.

(** The first tick on the flaky host fails inside the [for] loop and is
    caught at the tick boundary. *)
Example flaky_first_tick :
  tick_body (default_manager flaky_host) flaky_host []
  = (Raised AttributeError,
     [EvRun nvidia_smi_argv;
      EvLog WARNING (MsgHighVram (float_of_Z 30000) 20480);
      EvGet "http://localhost:11434/api/ps";
      EvLog INFO (MsgFound 1)])
  /\ tick (default_manager flaky_host) flaky_host []
     = (Returned Continue,
        [EvRun nvidia_smi_argv;
         EvLog WARNING (MsgHighVram (float_of_Z 30000) 20480);
         EvGet "http://localhost:11434/api/ps";
         EvLog INFO (MsgFound 1);
         EvLog ERROR (MsgUnexpected AttributeError);
         EvSleep 5]).
Proof. split; vm_compute; reflexivity. Qed.


(** C2 as stated fails: on Linux with threshold -1 a zero sample is above
    the threshold, yet no remediation pass starts. *)
Lemma strict_threshold_fails_below_zero :
  let self := VRAMManager_init bare_host (-1) localhost 5 false in
  float_gt_int float_zero (threshold_mb self) = true
  /\ remediates (snd (check_usage self bare_host float_zero [])) = false
  /\ ~ (remediates (snd (check_usage self bare_host float_zero [])) = true
        <-> float_gt_int float_zero (threshold_mb self) = true).
Proof.
  cbv zeta. split; [reflexivity|]. split; [reflexivity|].
  intros [_ H]. specialize (H eq_refl). discriminate H.
Qed.

Lemma policy_triggers_iff_above_witness :
  let self := VRAMManager_init (scenario "Linux") 1000 localhost 1 false in
  0 <= threshold_mb self
  /\ (remediates (snd (check_usage self (scenario "Linux") (float_of_Z 1500) []))
      = true
      <-> float_gt_int (float_of_Z 1500) (threshold_mb self) = true).
Proof.
  cbv zeta. split; [cbn; lia|].
  apply (policy_triggers_iff_above
           (VRAMManager_init (scenario "Linux") 1000 localhost 1 false)
           (scenario "Linux") (float_of_Z 1500) []).
  left. cbn. lia.
Defined.

(** C3 as stated fails: on Darwin with threshold -1 the zero sample of a
    host without [nvidia-smi] lists the models and unloads them. *)
Lemma zero_sample_remediates_on_darwin :
  let self := VRAMManager_init mac_host (-1) localhost 5 false in
  fst (get_vram_usage self mac_host []) = Returned float_zero
  /\ gets (snd (tick self mac_host [])) = [EvGet "http://localhost:11434/api/ps"]
  /\ posts (snd (tick self mac_host []))
     = [EvPost "http://localhost:11434/api/generate"
          (unload_payload (PStr "llama3"))]
  /\ unload_calls (snd (tick self mac_host [])) = [PStr "llama3"].
Proof. cbv zeta. repeat split; vm_compute; reflexivity. Qed.

Lemma zero_sample_never_remediates_witness :
  let self := VRAMManager_init mac_host 0 localhost 5 false in
  (0 <= threshold_mb self \/ system self <> "Darwin")
  /\ get_vram_usage self mac_host []
     = (Returned float_zero, [EvRun nvidia_smi_argv; EvLog DEBUG MsgSmiNotFound])
  /\ float_eqb float_zero float_zero = true
  /\ gets (snd (tick self mac_host [])) = []
  /\ posts (snd (tick self mac_host [])) = []
  /\ unload_calls (snd (tick self mac_host [])) = [].
Proof.
  cbv zeta. split; [left; cbn; lia|]. split; [reflexivity|].
  split; [reflexivity|].
  apply (zero_sample_never_remediates
           (VRAMManager_init mac_host 0 localhost 5 false) mac_host []
           float_zero [EvRun nvidia_smi_argv; EvLog DEBUG MsgSmiNotFound]).
  - left. cbn. lia.
  - reflexivity.
  - reflexivity.
Defined.

Lemma get_vram_usage_failure_is_zero_witness :
  measurement_failure bare_host []
  /\ fst (get_vram_usage (default_manager bare_host) bare_host [])
     = Returned float_zero.
Proof.
  split; [apply tool_missing; reflexivity|].
  apply (get_vram_usage_failure_is_zero (default_manager bare_host) bare_host []).
  apply tool_missing. reflexivity.
Defined.

(** The four kinds of failure, one host each. *)
Example failures_read_zero :
  let sample tool :=
    fst (get_vram_usage (default_manager bare_host)
           (make_world "Linux" (fun _ => tool) (fun _ => listing [])
              (fun _ => Returned 200)) []) in
  sample (Raised FileNotFoundError) = Returned float_zero
  /\ sample (Returned (9, "NVIDIA-SMI has failed")) = Returned float_zero
  /\ sample (Returned (0, nl)) = Returned float_zero
  /\ sample (reading "[N/A]") = Returned float_zero.
Proof. cbv zeta. repeat split; vm_compute; reflexivity. Qed.


(** On the two-GPU host, readings 1024 and 2048 aggregate to 3072. *)
Example two_gpus_sum :
  fst (get_vram_usage (default_manager busy_host) busy_host [])
  = Returned (float_of_Z 3072).
Proof. vm_compute. reflexivity. Qed.

Lemma listing_failure_means_no_eviction_witness :
  let self := default_manager failing_service in
  listing_failure self failing_service []
  /\ fst (get_loaded_models self failing_service []) = Returned (PList [])
  /\ fst (get_vram_usage self failing_service []) = Returned (float_of_Z 30000)
  /\ float_gt_int (float_of_Z 30000) (threshold_mb self) = true
  /\ posts (snd (tick self failing_service [])) = []
  /\ unload_calls (snd (tick self failing_service [])) = [].
Proof.
  cbv zeta.
  assert (Hfail : listing_failure (default_manager failing_service)
                    failing_service []).
  { apply (bad_status _ _ _ 500 (Raised ContentTypeError));
      [reflexivity|lia]. }
  split; [exact Hfail|].
  split; [exact (proj1 (listing_failure_means_no_eviction
                          (default_manager failing_service) failing_service)
                   [] Hfail)|].
  split; [vm_compute; reflexivity|]. split; [vm_compute; reflexivity|].
  apply (proj2 (listing_failure_means_no_eviction
                  (default_manager failing_service) failing_service)
           [] (float_of_Z 30000) [EvRun nvidia_smi_argv]).
  - vm_compute. reflexivity.
  - vm_compute. reflexivity.
Defined.

(** C6 as stated fails: with [--dry-run], one-shot mode on three resident
    models sends no unload request at all. *)
Lemma clear_now_dry_run_sends_nothing :
  let run := main (clear_now_args true) busy_host 0 [] in
  fst run = Returned Stopped
  /\ gets (snd run) = [EvGet "http://localhost:11434/api/ps"]
  /\ unload_calls (snd run) = [PStr "A"; PStr "B"; PStr "C"]
  /\ posts (snd run) = []
  /\ List.length (posts (snd run)) <> 3%nat.
Proof. cbv zeta. repeat split; vm_compute; try reflexivity. discriminate. Qed.

Lemma clear_now_unloads_in_order_witness :
  let run := main (clear_now_args false) busy_host 0 [] in
  arg_clear_now (clear_now_args false) = true
  /\ gets (snd run) = [EvGet "http://localhost:11434/api/ps"]
  /\ posts (snd run)
     = [EvPost "http://localhost:11434/api/generate" (unload_payload (PStr "A"));
        EvPost "http://localhost:11434/api/generate" (unload_payload (PStr "B"));
        EvPost "http://localhost:11434/api/generate" (unload_payload (PStr "C"))].
Proof.
  cbv zeta. split; [reflexivity|].
  pose proof (clear_now_unloads_in_order (clear_now_args false) busy_host 0 []
                (ps_body [model "A"; model "B"; model "C"])
                [model "A"; model "B"; model "C"]
                [PStr "A"; PStr "B"; PStr "C"]) as H.
  cbv zeta in H.
  destruct H as (_ & Hgets & _ & Hposts & _).
  - reflexivity.
  - reflexivity.
  - reflexivity.
  - repeat constructor.
  - intros h' url payload e. cbn. discriminate.
  - split; [exact Hgets|exact Hposts].
Defined.

Lemma dry_run_unload_is_local_witness :
  let self := VRAMManager_init busy_host 20480 localhost 5 true in
  dry_run self = true
  /\ fst (unload_model self busy_host (PStr "A") []) = Returned tt
  /\ filter is_network (snd (unload_model self busy_host (PStr "A") [])) = [].
Proof.
  cbv zeta. split; [reflexivity|].
  destruct (dry_run_unload_is_local
              (VRAMManager_init busy_host 20480 localhost 5 true)
              busy_host (PStr "A") [] eq_refl) as (Hret & Hnet & _).
  split; [exact Hret|exact Hnet].
Defined.

(** C8: threshold 1000, interval 1, usage 500, 1500, 500 over three ticks,
    two models resident on the second tick only: the only listing happens
    on tick 2, [unload_model] is entered there for both models in the
    listed order (sending both requests unless in dry-run), and ticks 1
    and 3 evict nothing.  Holds on every platform. *)
Theorem scenario_one_pass_on_tick_two (sys : string) (dry : bool) :
  let w := scenario sys in
  let self := VRAMManager_init w 1000 localhost 1 dry in
  let url := "http://localhost:11434/api/generate" in
  exists evs,
    monitor_loop self w 3 [] = (Returned Running, evs)
    /\ map gets (split_ticks [] evs)
       = [[]; [EvGet "http://localhost:11434/api/ps"]; []]
    /\ map unload_calls (split_ticks [] evs) = [[]; [PStr "A"; PStr "B"]; []]
    /\ map posts (split_ticks [] evs)
       = [[];
          if dry then []
          else [EvPost url (unload_payload (PStr "A"));
                EvPost url (unload_payload (PStr "B"))];
          []].
Proof.
  cbv zeta. destruct dry; eexists; (split; [vm_compute; reflexivity|]);
    repeat split; vm_compute; reflexivity.
Qed.

Lemma platform_does_not_change_decision_witness :
  0 < 20480
  /\ remediates (snd (check_usage
                        (VRAMManager_init (with_platform bare_host "Darwin")
                           20480 localhost 5 false)
                        (with_platform bare_host "Darwin") float_zero []))
     = remediates (snd (check_usage
                          (VRAMManager_init (with_platform bare_host "Linux")
                             20480 localhost 5 false)
                          (with_platform bare_host "Linux") float_zero [])).
Proof.
  split; [lia|].
  apply (platform_does_not_change_decision bare_host 20480 5 localhost false
           "Darwin" "Linux" float_zero []).
  lia.
Defined.

(** On Darwin the zero sample takes the other log branch. *)
Example darwin_log_branch :
  snd (check_usage (VRAMManager_init (with_platform bare_host "Darwin")
                      20480 localhost 5 false)
         (with_platform bare_host "Darwin") float_zero [])
  = [EvLog DEBUG (MsgVramOk float_zero)]
  /\ snd (check_usage (VRAMManager_init (with_platform bare_host "Linux")
                         20480 localhost 5 false)
            (with_platform bare_host "Linux") float_zero [])
     = [EvLog DEBUG MsgUnavailable].
Proof. split; reflexivity. Qed.

(** A sample equal to the threshold is not above it. *)
Example equal_is_not_above :
  float_eq_int (float_of_Z 1000) 1000 = true
  /\ float_gt_int (float_of_Z 1000) 1000 = false
  /\ float_gt_int (float_of_Z 1001) 1000 = true.
Proof. repeat split; vm_compute; reflexivity. Qed.

(** ** Beyond the claims: composing computations *)

Lemma run_bind {A B} (m : M A) (f : A -> M B) h :
  bind m f h =
  match m h with
  | (Returned a, e1) => (fst (f a (h ++ e1)), e1 ++ snd (f a (h ++ e1)))
  | (Raised x, e1) => (Raised x, e1)
  end.
Proof.
  unfold bind. destruct (m h) as [[a|x] e1]; [|reflexivity].
  destruct (f a (h ++ e1)); reflexivity.
Qed.

Lemma none_filtered (Q : event -> bool) evs :
  forallb (fun ev => negb (Q ev)) evs = true -> filter Q evs = [].
Proof.
  induction evs as [|ev evs IH]; cbn; [reflexivity|].
  intros H. apply andb_prop in H as [Hev H].
  destruct (Q ev); [discriminate|auto].
Qed.

Lemma forallb_weaken (P Q : event -> bool) evs :
  (forall ev, P ev = true -> Q ev = true) ->
  forallb P evs = true -> forallb Q evs = true.
Proof.
  intros HPQ. induction evs as [|ev evs IH]; cbn; [reflexivity|].
  intros H. apply andb_prop in H as [Hev H].
  rewrite (HPQ _ Hev), (IH H). reflexivity.
Qed.

Lemma check_usage_unfold self w v :
  check_usage self w v =
  if float_eqb v float_zero && negb (String.eqb (system self) "Darwin")
  then log DEBUG MsgUnavailable
  else if float_gt_int v (threshold_mb self) then
    bind (log WARNING (MsgHighVram v (threshold_mb self)))
      (fun _ => bind (get_loaded_models self w) (after_listing self w))
  else log DEBUG (MsgVramOk v).
Proof. reflexivity. Qed.

(** ** What each function may emit, in any world *)

Section Emits.
Variable P : event -> bool.
Variable self : VRAMManager.
Variable w : world.
Hypothesis Prun : P (EvRun nvidia_smi_argv) = true.
Hypothesis Pget : P (EvGet (ollama_url self ++ "/api/ps")%string) = true.
Hypothesis Ppost :
  dry_run self = false ->
  forall n, P (EvPost (ollama_url self ++ "/api/generate")%string
                 (unload_payload n)) = true.
Hypothesis Psleep : P (EvSleep (interval self)) = true.
Hypothesis Plog : forall lvl msg, P (EvLog lvl msg) = true.

Let any_exn : exn -> bool := fun _ => true.

Lemma get_vram_usage_emits : obeys P any_exn (get_vram_usage self w).
Proof. apply get_vram_usage_obeys; auto. Qed.

Lemma get_loaded_models_emits : obeys P any_exn (get_loaded_models self w).
Proof.
  intros h. split; [|reflexivity]. rewrite get_loaded_models_run.
  destruct (ps_answer self w h) as [[status body]|e].
  - destruct (status =? 200); [|cbn; rewrite Pget; reflexivity].
    destruct body as [data|e].
    + destruct (py_get data "models" (PList [])); cbn;
        rewrite Pget, ?Plog; reflexivity.
    + destruct (is_Exception e); cbn; rewrite Pget, ?Plog; reflexivity.
  - destruct (is_Exception e); cbn; rewrite Pget, ?Plog; reflexivity.
Qed.

Lemma unload_model_emits model_name :
  obeys P any_exn (unload_model self w model_name).
Proof.
  intros h. split; [|reflexivity]. rewrite unload_model_run.
  destruct (dry_run self) eqn:Hdry; [cbn; rewrite Plog; reflexivity|].
  pose proof (Ppost eq_refl model_name) as Hp.
  destruct (generate_answer self w model_name h) as [status|e].
  - destruct (status =? 200); cbn; rewrite Hp, !Plog; reflexivity.
  - destruct (is_Exception e); cbn; rewrite Hp, ?Plog; reflexivity.
Qed.

Lemma unload_all_emits loaded : obeys P any_exn (unload_all self w loaded).
Proof.
  unfold unload_all. apply obeys_bind; [apply obeys_lift; reflexivity|].
  intros models. apply obeys_for_each. intros model.
  apply obeys_bind; [apply obeys_lift; reflexivity|].
  apply unload_model_emits.
Qed.

Lemma after_listing_emits loaded :
  obeys P any_exn (after_listing self w loaded).
Proof.
  unfold after_listing.
  destruct (truthy loaded); [|apply obeys_emit, Plog].
  apply obeys_bind; [apply obeys_lift; reflexivity|intros n].
  apply obeys_bind; [apply obeys_emit, Plog|intros _].
  apply unload_all_emits.
Qed.

Lemma check_usage_emits v : obeys P any_exn (check_usage self w v).
Proof.
  rewrite check_usage_unfold.
  destruct (_ && _); [apply obeys_emit, Plog|].
  destruct (float_gt_int _ _); [|apply obeys_emit, Plog].
  apply obeys_bind; [apply obeys_emit, Plog|intros _].
  apply obeys_bind; [apply get_loaded_models_emits|].
  apply after_listing_emits.
Qed.

Lemma sleep_emits : obeys P any_exn (sleep self w).
Proof.
  unfold sleep. apply obeys_bind; [apply obeys_emit, Psleep|intros _].
  apply obeys_ask. reflexivity.
Qed.

Lemma tick_emits : obeys P any_exn (tick self w).
Proof.
  unfold tick, tick_body. apply obeys_try.
  - apply obeys_bind; [|intros _; apply obeys_ret].
    apply obeys_bind; [apply get_vram_usage_emits|intros v].
    apply obeys_bind; [apply check_usage_emits|intros _].
    apply sleep_emits.
  - intros e k Hk.
    destruct e; cbn in Hk; inversion Hk; subst k;
      (apply obeys_bind; [apply obeys_emit, Plog|intros _]);
      try apply obeys_ret;
      (apply obeys_bind; [apply sleep_emits|intros _; apply obeys_ret]).
Qed.

Lemma while_true_emits fuel : obeys P any_exn (while_true self w fuel).
Proof.
  induction fuel as [|fuel IH]; cbn [while_true]; [apply obeys_ret|].
  apply obeys_bind; [apply tick_emits|].
  intros [|]; [exact IH|apply obeys_ret].
Qed.

Lemma monitor_loop_emits fuel : obeys P any_exn (monitor_loop self w fuel).
Proof.
  unfold monitor_loop.
  repeat (apply obeys_bind; [apply obeys_emit, Plog|intros _]).
  apply while_true_emits.
Qed.
End Emits.

(** ** One tick, in any world *)

(** The sampler runs the tool once and adds at most one log line. *)
Lemma get_vram_usage_trace self w h :
  exists l,
    snd (get_vram_usage self w h) = EvRun nvidia_smi_argv :: l
    /\ forallb is_log l = true
    /\ unload_calls l = [].
Proof.
  rewrite get_vram_usage_run.
  destruct (tool_answer w h) as [[rc out]|e].
  - destruct (_ && _); [|exists []; auto].
    destruct (floats_of w _); eexists; cbn; auto.
  - destruct e; cbn; eexists; cbn; auto.
Qed.

(** A tick is the sample, then the reaction to it, then sleeps and the
    log lines of the [except] clauses. *)
Ltac close_tail :=
  first
    [ exists []; split; [reflexivity|cbn; rewrite ?app_nil_r; reflexivity]
    | eexists; split; [|cbn; rewrite <- ?app_assoc; cbn; reflexivity];
      reflexivity ].

Ltac run_handler w :=
  rewrite sleep_run; destruct (asyncio_sleep w _ _) as [[]|?]; close_tail.

Lemma tick_split self w h :
  exists tl,
    forallb tail_event tl = true
    /\ snd (tick self w h) =
       snd (get_vram_usage self w h)
       ++ match fst (get_vram_usage self w h) with
          | Returned v =>
              snd (check_usage self w v (h ++ snd (get_vram_usage self w h)))
          | Raised _ => []
          end
       ++ tl.
Proof.
  unfold tick, tick_body, try_except, bind.
  destruct (get_vram_usage self w h) as [[v|e] e1]; cbn [fst snd].
  - destruct (check_usage self w v (h ++ e1)) as [[[]|e] e2]; cbn [fst snd].
    + rewrite sleep_run.
      destruct (asyncio_sleep w _ _) as [[]|e]; cbn -[sleep];
        [close_tail|].
      destruct e; cbn -[sleep]; try close_tail; run_handler w.
    + destruct e; cbn -[sleep]; try close_tail; run_handler w.
  - destruct e; cbn -[sleep]; try close_tail; run_handler w.
Qed.

Lemma tail_event_quiet tl :
  forallb tail_event tl = true ->
  runs tl = [] /\ gets tl = [] /\ posts tl = [] /\ unload_calls tl = []
  /\ forallb no_eviction tl = true.
Proof.
  unfold runs, gets, posts.
  induction tl as [|ev tl IH]; cbn; [auto|].
  intros H. apply andb_prop in H as [Hev H].
  destruct (IH H) as (Hr & Hg & Hp & Hu & Hn).
  destruct ev as [argv|url|url payload|secs|lvl msg]; try discriminate Hev;
    cbn; [auto|].
  destruct lvl, msg; try discriminate Hev; cbn; auto.
Qed.

Lemma sampler_quiet self w h :
  runs (snd (get_vram_usage self w h)) = [EvRun nvidia_smi_argv]
  /\ gets (snd (get_vram_usage self w h)) = []
  /\ posts (snd (get_vram_usage self w h)) = []
  /\ unload_calls (snd (get_vram_usage self w h)) = []
  /\ forallb no_eviction (snd (get_vram_usage self w h)) = true.
Proof.
  rewrite get_vram_usage_run.
  destruct (tool_answer w h) as [[rc out]|e].
  - destruct (_ && _); [|cbn; auto].
    destruct (floats_of w _); cbn; auto.
  - destruct e; cbn; auto.
Qed.

Lemma check_usage_never_runs self w v h :
  runs (snd (check_usage self w v h)) = [].
Proof.
  apply none_filtered.
  apply (check_usage_emits (fun ev => negb (is_run ev)) self w); auto.
Qed.

Lemma after_listing_never_lists self w loaded h :
  gets (snd (after_listing self w loaded h)) = [].
Proof.
  apply none_filtered.
  apply (after_listing_emits (fun ev => negb (is_get ev)) self w); auto.
Qed.

Lemma get_loaded_models_lists_once self w h :
  gets (snd (get_loaded_models self w h))
  = [EvGet (ollama_url self ++ "/api/ps")%string].
Proof.
  destruct (get_loaded_models_shape self w h) as (r & rest & -> & Hlogs).
  cbn. f_equal. apply none_filtered.
  revert Hlogs. apply forallb_weaken. intros [] H; cbn in *; congruence.
Qed.

Lemma check_usage_gets self w v h :
  gets (snd (check_usage self w v h))
  = if high_sample self v
    then [EvGet (ollama_url self ++ "/api/ps")%string] else [].
Proof.
  rewrite check_usage_unfold. unfold high_sample.
  destruct (_ && _); [reflexivity|].
  destruct (float_gt_int _ _); [|reflexivity].
  cbn [negb andb]. rewrite run_bind.
  cbn [log emit fst snd gets filter is_get app]. rewrite run_bind.
  pose proof (get_loaded_models_lists_once self w
                (h ++ [EvLog WARNING (MsgHighVram v (threshold_mb self))]))
    as Hg.
  destruct (get_loaded_models self w _) as [[loaded|e] eg]; cbn [fst snd] in *.
  - unfold gets in *. rewrite filter_app, Hg.
    fold (gets (snd (after_listing self w loaded
                       ((h ++ [EvLog WARNING (MsgHighVram v (threshold_mb self))])
                          ++ eg)))).
    rewrite after_listing_never_lists. reflexivity.
  - exact Hg.
Qed.

(** X1: whatever the tool, the service and the clock do, a tick runs the
    measurement tool exactly once, with the fixed [nvidia-smi] query. *)
Theorem tick_samples_once self w h :
  runs (snd (tick self w h)) = [EvRun nvidia_smi_argv].
Proof.
  destruct (tick_split self w h) as (tl & Htl & ->).
  destruct (sampler_quiet self w h) as (Hr & _).
  destruct (tail_event_quiet tl Htl) as (Hrt & _).
  unfold runs in *. rewrite !filter_app, Hr, Hrt.
  destruct (fst (get_vram_usage self w h)) as [v|e]; [|reflexivity].
  fold (runs (snd (check_usage self w v (h ++ snd (get_vram_usage self w h))))).
  rewrite check_usage_never_runs. reflexivity.
Qed.

(** X2: in any world a tick asks the service for its models at most once,
    and exactly when the sampler returned a value that takes the [elif]
    branch (not caught by the zero guard, strictly above the threshold). *)
Theorem tick_lists_exactly_when_high self w h :
  gets (snd (tick self w h))
  = match fst (get_vram_usage self w h) with
    | Returned v =>
        if high_sample self v
        then [EvGet (ollama_url self ++ "/api/ps")%string] else []
    | Raised _ => []
    end.
Proof.
  destruct (tick_split self w h) as (tl & Htl & ->).
  destruct (sampler_quiet self w h) as (_ & Hg & _).
  destruct (tail_event_quiet tl Htl) as (_ & Hgt & _).
  unfold gets in *. rewrite !filter_app, Hg, Hgt, app_nil_r. cbn [app].
  destruct (fst (get_vram_usage self w h)) as [v|e]; [|reflexivity].
  apply check_usage_gets.
Qed.

Lemma check_usage_calm_unless self w v h :
  forallb no_eviction (snd (check_usage self w v h)) = false ->
  high_sample self v = true
  /\ exists loaded,
       fst (get_loaded_models self w
              (h ++ [EvLog WARNING (MsgHighVram v (threshold_mb self))]))
         = Returned loaded
       /\ truthy loaded = true.
Proof.
  rewrite check_usage_unfold. unfold high_sample.
  destruct (_ && _); [discriminate|].
  destruct (float_gt_int _ _); [|discriminate].
  rewrite run_bind. cbn [log emit fst snd]. rewrite run_bind.
  pose proof (get_loaded_models_no_eviction self w
                (h ++ [EvLog WARNING (MsgHighVram v (threshold_mb self))]))
    as Hq.
  destruct (get_loaded_models self w _) as [[loaded|e] eg];
    cbn [fst snd] in *.
  - intros H. split; [reflexivity|]. exists loaded. split; [reflexivity|].
    unfold after_listing in H.
    destruct (truthy loaded); [reflexivity|].
    cbn in H. rewrite forallb_app, Hq in H. discriminate H.
  - cbn. rewrite Hq. discriminate.
Qed.

(** X3: in any world, a tick sends an unload request or enters
    [unload_model] only if the sampler returned a value that takes the
    [elif] branch and the listing that followed returned a truthy value. *)
Theorem eviction_needs_high_sample_and_listing self w h :
  forallb no_eviction (snd (tick self w h)) = false ->
  exists v loaded,
    fst (get_vram_usage self w h) = Returned v
    /\ high_sample self v = true
    /\ fst (get_loaded_models self w
              ((h ++ snd (get_vram_usage self w h))
                 ++ [EvLog WARNING (MsgHighVram v (threshold_mb self))]))
       = Returned loaded
    /\ truthy loaded = true.
Proof.
  destruct (tick_split self w h) as (tl & Htl & ->).
  destruct (sampler_quiet self w h) as (_ & _ & _ & _ & Hs).
  destruct (tail_event_quiet tl Htl) as (_ & _ & _ & _ & Ht).
  rewrite !forallb_app, Hs, Ht, andb_true_r. cbn [andb].
  destruct (fst (get_vram_usage self w h)) as [v|e]; [|discriminate].
  intros H. apply check_usage_calm_unless in H as (Hhigh & loaded & Hl & Ht').
  exists v, loaded. auto.
Qed.

(** ** A remediation pass *)

Lemma unload_all_objects self w models names h :
  (forall h' url payload e,
     session_post w h' url payload = Raised e -> is_Exception e = true) ->
  Forall2 (fun model name => py_get model "name" PNone = Returned name)
    models names ->
  exists evs,
    unload_all self w (PList models) h = (Returned tt, evs)
    /\ unload_calls evs = names
    /\ posts evs =
       (if dry_run self then []
        else map (fun name => EvPost (ollama_url self ++ "/api/generate")%string
                                (unload_payload name)) names).
Proof.
  intros Hpost Hnames.
  destruct (for_each_unload self w models names (h ++ []) Hpost Hnames)
    as (evs & Hrun & Hcalls & Hposts & _).
  exists evs. split; [|auto].
  unfold unload_all. rewrite run_bind. cbn [lift py_iter fst snd].
  rewrite Hrun. reflexivity.
Qed.

(** X4: in continuous mode, when the sample is high and the service lists
    model objects, the tick enters [unload_model] once per listed model in
    the listed order, whatever status or ordinary exception each request
    meets; with dry-run off it sends one request per model in that order. *)
Theorem pass_unloads_every_listed_model self w h v e1 eg models names :
  get_vram_usage self w h = (Returned v, e1) ->
  high_sample self v = true ->
  get_loaded_models self w
    ((h ++ e1) ++ [EvLog WARNING (MsgHighVram v (threshold_mb self))])
    = (Returned (PList models), eg) ->
  Forall2 (fun model name => py_get model "name" PNone = Returned name)
    models names ->
  (forall h' url payload e,
     session_post w h' url payload = Raised e -> is_Exception e = true) ->
  unload_calls (snd (tick self w h)) = names
  /\ posts (snd (tick self w h)) =
     (if dry_run self then []
      else map (fun name => EvPost (ollama_url self ++ "/api/generate")%string
                              (unload_payload name)) names).
Proof.
  intros Hs Hhigh Hg Hnames Hpost.
  destruct (tick_split self w h) as (tl & Htl & ->).
  destruct (sampler_quiet self w h) as (_ & _ & Hp1 & Hu1 & _).
  destruct (tail_event_quiet tl Htl) as (_ & _ & Hp3 & Hu3 & _).
  rewrite Hs in *. cbn [fst snd] in *.
  assert (Hpass : unload_calls (snd (check_usage self w v (h ++ e1))) = names
                  /\ posts (snd (check_usage self w v (h ++ e1))) =
                     (if dry_run self then []
                      else map (fun name =>
                                  EvPost (ollama_url self ++ "/api/generate")%string
                                    (unload_payload name)) names)).
  { rewrite check_usage_unfold. unfold high_sample in Hhigh.
    apply andb_prop in Hhigh as [Hguard Hgt].
    apply negb_true_iff in Hguard. rewrite Hguard, Hgt.
    rewrite run_bind. cbn [log emit fst snd]. rewrite run_bind, Hg.
    cbn [fst snd].
    assert (Hgq : unload_calls eg = [] /\ posts eg = []).
    { pose proof (get_loaded_models_no_eviction self w
                    ((h ++ e1)
                       ++ [EvLog WARNING (MsgHighVram v (threshold_mb self))]))
        as Hq.
      rewrite Hg in Hq. cbn in Hq. clear - Hq. unfold posts.
      induction eg as [|ev eg IH]; [auto|].
      cbn in Hq. apply andb_prop in Hq as [Hev Hq].
      destruct (IH Hq) as [Hu Hp]. unfold no_eviction in Hev. cbn.
      destruct (is_post ev), (unload_call ev); cbn in Hev;
        try discriminate; auto. }
    destruct Hgq as [Hgu Hgp].
    unfold after_listing. destruct models as [|m ms].
    - inversion Hnames; subst. cbn.
      rewrite unload_calls_app, Hgu. unfold posts in *.
      rewrite filter_app, Hgp. destruct (dry_run self); auto.
    - cbn [truthy]. rewrite run_bind. cbn [lift py_len fst snd].
      rewrite run_bind. cbn [log emit fst snd].
      destruct (unload_all_objects self w (m :: ms) names
                  (((((h ++ e1)
                        ++ [EvLog WARNING (MsgHighVram v (threshold_mb self))])
                       ++ eg) ++ [])
                     ++ [EvLog INFO
                           (MsgFound (Z.of_nat (Datatypes.length (m :: ms))))])
                  Hpost Hnames)
        as (evs & Hrun & Hcalls & Hposts).
      rewrite Hrun. cbn [fst snd]. cbn [app unload_calls unload_call].
      rewrite !unload_calls_app, Hgu. cbn [app unload_calls unload_call].
      unfold posts in *. cbn [filter is_post].
      rewrite !filter_app, Hgp. cbn [app filter is_post].
      auto. }
  destruct Hpass as [Hu2 Hp2].
  rewrite !unload_calls_app, Hu1, Hu2, Hu3, app_nil_r.
  unfold posts in *. rewrite !filter_app, Hp1, Hp2, Hp3, app_nil_r.
  auto.
Qed.

Lemma no_eviction_quiet evs :
  forallb no_eviction evs = true -> unload_calls evs = [] /\ posts evs = [].
Proof.
  unfold posts. induction evs as [|ev evs IH]; [auto|].
  cbn. intros H. apply andb_prop in H as [Hev H].
  destruct (IH H) as [Hu Hp]. unfold no_eviction in Hev.
  destruct (is_post ev), (unload_call ev); cbn in Hev; try discriminate; auto.
Qed.

Lemma check_usage_high_run self w v h loaded eg :
  high_sample self v = true ->
  get_loaded_models self w
    (h ++ [EvLog WARNING (MsgHighVram v (threshold_mb self))])
    = (Returned loaded, eg) ->
  let h' := (h ++ [EvLog WARNING (MsgHighVram v (threshold_mb self))]) ++ eg in
  check_usage self w v h =
  (fst (after_listing self w loaded h'),
   [EvLog WARNING (MsgHighVram v (threshold_mb self))]
     ++ eg ++ snd (after_listing self w loaded h')).
Proof.
  intros Hhigh Hg h'. rewrite check_usage_unfold. unfold high_sample in Hhigh.
  apply andb_prop in Hhigh as [Hguard Hgt].
  apply negb_true_iff in Hguard. rewrite Hguard, Hgt.
  rewrite run_bind. cbn [log emit fst snd]. rewrite run_bind, Hg.
  reflexivity.
Qed.

(** The [for] loop stops at the first entry that has no [get]. *)
Lemma for_each_unload_abort self w pre names bad rest h :
  (forall h' url payload e,
     session_post w h' url payload = Raised e -> is_Exception e = true) ->
  Forall2 (fun model name => py_get model "name" PNone = Returned name)
    pre names ->
  py_get bad "name" PNone = Raised AttributeError ->
  exists evs,
    for_each (pre ++ bad :: rest)
      (fun model => bind (lift (py_get model "name" PNone))
                      (fun name => unload_model self w name)) h
      = (Raised AttributeError, evs)
    /\ unload_calls evs = names
    /\ posts evs =
       (if dry_run self then []
        else map (fun name => EvPost (ollama_url self ++ "/api/generate")%string
                                (unload_payload name)) names).
Proof.
  intros Hpost Hnames Hbad. revert h.
  induction Hnames as [|model name pre names Hname _ IH]; intros h.
  - exists []. cbn [app for_each]. rewrite run_bind, run_bind.
    cbn [lift]. rewrite Hbad. destruct (dry_run self); auto.
  - destruct (unload_model_once self w name (h ++ []) Hpost)
      as (e1 & Hrun & Hcalls & Hposts & _).
    destruct (IH (h ++ ([] ++ e1))) as (e2 & Hrest & Hcalls2 & Hposts2).
    exists (([] ++ e1) ++ e2). split; [|split].
    + cbn [app for_each]. rewrite run_bind.
      erewrite bind_returned; [|unfold lift; rewrite Hname; reflexivity
                               |exact Hrun].
      cbn [app] in *. rewrite Hrest. reflexivity.
    + cbn. rewrite unload_calls_app, Hcalls, Hcalls2. reflexivity.
    + cbn. unfold posts in *. rewrite filter_app, Hposts, Hposts2.
      destruct (dry_run self); reflexivity.
Qed.

Lemma unload_all_abort self w pre names bad rest h :
  (forall h' url payload e,
     session_post w h' url payload = Raised e -> is_Exception e = true) ->
  Forall2 (fun model name => py_get model "name" PNone = Returned name)
    pre names ->
  py_get bad "name" PNone = Raised AttributeError ->
  exists evs,
    unload_all self w (PList (pre ++ bad :: rest)) h
      = (Raised AttributeError, evs)
    /\ unload_calls evs = names
    /\ posts evs =
       (if dry_run self then []
        else map (fun name => EvPost (ollama_url self ++ "/api/generate")%string
                                (unload_payload name)) names).
Proof.
  intros Hpost Hnames Hbad.
  destruct (for_each_unload_abort self w pre names bad rest (h ++ [])
              Hpost Hnames Hbad) as (evs & Hrun & Hcalls & Hposts).
  exists evs. split; [|auto].
  unfold unload_all. rewrite run_bind. cbn [lift py_iter fst snd].
  rewrite Hrun. reflexivity.
Qed.

(** X5: one-shot mode has no handler around its loop: when a listed entry
    is not an object, [main] ends with [AttributeError], having entered
    [unload_model] for exactly the entries before it, in order. *)
Theorem clear_now_stops_at_malformed_entry
    a w fuel h eg pre names bad rest :
  arg_clear_now a = true ->
  get_loaded_models (manager_of a w) w (h ++ [EvLog INFO MsgManualCleanup])
    = (Returned (PList (pre ++ bad :: rest)), eg) ->
  Forall2 (fun model name => py_get model "name" PNone = Returned name)
    pre names ->
  py_get bad "name" PNone = Raised AttributeError ->
  (forall h' url payload e,
     session_post w h' url payload = Raised e -> is_Exception e = true) ->
  fst (main a w fuel h) = Raised AttributeError
  /\ unload_calls (snd (main a w fuel h)) = names
  /\ posts (snd (main a w fuel h)) =
     (if arg_dry_run a then []
      else map (fun name => EvPost (arg_host a ++ "/api/generate")%string
                              (unload_payload name)) names).
Proof.
  intros Hclear Hg Hnames Hbad Hpost.
  pose proof (get_loaded_models_no_eviction (manager_of a w) w
                (h ++ [EvLog INFO MsgManualCleanup])) as Hq.
  rewrite Hg in Hq. cbn [snd] in Hq.
  apply no_eviction_quiet in Hq as [Hgu Hgp].
  destruct (unload_all_abort (manager_of a w) w pre names bad rest
              ((h ++ [EvLog INFO MsgManualCleanup]) ++ eg) Hpost Hnames Hbad)
    as (evs & Hrun & Hcalls & Hposts).
  assert (Hmain : main a w fuel h
                  = (Raised AttributeError,
                     [EvLog INFO MsgManualCleanup] ++ eg ++ evs)).
  { unfold main. rewrite Hclear. fold (manager_of a w).
    rewrite run_bind. cbn [log emit fst snd]. rewrite run_bind, Hg.
    cbn [fst snd]. rewrite run_bind.
    assert (Htruthy : truthy (PList (pre ++ bad :: rest)) = true)
      by (destruct pre; reflexivity).
    rewrite Htruthy, Hrun. reflexivity. }
  rewrite Hmain. cbn [fst snd app unload_calls unload_call].
  rewrite unload_calls_app, Hgu, Hcalls. unfold posts in *.
  cbn [filter is_post]. rewrite filter_app, Hgp, Hposts. auto.
Qed.

(** X6: in continuous mode the same malformed entry ends the pass, not
    the loop: the body of the tick raises [AttributeError], and the tick
    as a whole has entered [unload_model] for exactly the entries before
    it; the entries after it are left for a later tick. *)
Theorem tick_stops_pass_at_malformed_entry
    self w h v e1 eg pre names bad rest :
  get_vram_usage self w h = (Returned v, e1) ->
  high_sample self v = true ->
  get_loaded_models self w
    ((h ++ e1) ++ [EvLog WARNING (MsgHighVram v (threshold_mb self))])
    = (Returned (PList (pre ++ bad :: rest)), eg) ->
  Forall2 (fun model name => py_get model "name" PNone = Returned name)
    pre names ->
  py_get bad "name" PNone = Raised AttributeError ->
  (forall h' url payload e,
     session_post w h' url payload = Raised e -> is_Exception e = true) ->
  fst (tick_body self w h) = Raised AttributeError
  /\ unload_calls (snd (tick self w h)) = names
  /\ posts (snd (tick self w h)) =
     (if dry_run self then []
      else map (fun name => EvPost (ollama_url self ++ "/api/generate")%string
                              (unload_payload name)) names).
Proof.
  intros Hs Hhigh Hg Hnames Hbad Hpost.
  pose proof (get_loaded_models_no_eviction self w
                ((h ++ e1)
                   ++ [EvLog WARNING (MsgHighVram v (threshold_mb self))]))
    as Hq.
  rewrite Hg in Hq. cbn [snd] in Hq.
  apply no_eviction_quiet in Hq as [Hgu Hgp].
  pose proof (check_usage_high_run self w v (h ++ e1) _ eg Hhigh Hg) as Hc.
  cbv zeta in Hc.
  set (h' := ((h ++ e1)
                ++ [EvLog WARNING (MsgHighVram v (threshold_mb self))]) ++ eg)
    in *.
  destruct (unload_all_abort self w pre names bad rest
              ((h' ++ [])
                 ++ [EvLog INFO
                       (MsgFound (Z.of_nat
                                    (Datatypes.length (pre ++ bad :: rest))))])
              Hpost Hnames Hbad)
    as (evs & Hrun & Hcalls & Hposts).
  assert (Hafter : after_listing self w (PList (pre ++ bad :: rest)) h'
                   = (Raised AttributeError,
                      EvLog INFO
                        (MsgFound (Z.of_nat
                                     (Datatypes.length (pre ++ bad :: rest))))
                        :: evs)).
  { unfold after_listing.
    assert (Htruthy : truthy (PList (pre ++ bad :: rest)) = true)
      by (destruct pre; reflexivity).
    rewrite Htruthy, run_bind. cbn [lift py_len fst snd].
    rewrite run_bind. cbn [log emit fst snd]. rewrite Hrun. reflexivity. }
  rewrite Hafter in Hc. cbn [fst snd] in Hc.
  split.
  - unfold tick_body. rewrite run_bind, Hs. cbn [fst snd].
    rewrite run_bind, Hc. reflexivity.
  - destruct (tick_split self w h) as (tl & Htl & ->).
    destruct (sampler_quiet self w h) as (_ & _ & Hp1 & Hu1 & _).
    destruct (tail_event_quiet tl Htl) as (_ & _ & Hp3 & Hu3 & _).
    rewrite Hs in *. cbn [fst snd] in *. rewrite Hc. cbn [snd]. split.
    + rewrite !unload_calls_app, Hu1, Hu3, Hgu.
      cbn [app unload_calls unload_call]. rewrite Hcalls. apply app_nil_r.
    + unfold posts in *. rewrite !filter_app, Hp1, Hp3, Hgp.
      cbn [app filter is_post]. rewrite Hposts. apply app_nil_r.
Qed.

(** ** Exceptions the loop does not absorb *)

(** X7: a [KeyboardInterrupt] raised anywhere in the body of a tick (tool,
    service or sleep) is answered by the "stopping" log line and ends the
    loop at once: no sleep, no further tick, whatever fuel is left. *)
Theorem interrupt_stops_loop self w h evs :
  tick_body self w h = (Raised KeyboardInterrupt, evs) ->
  tick self w h = (Returned Break, evs ++ [EvLog INFO MsgStopping])
  /\ forall fuel,
       while_true self w (S fuel) h
       = (Returned Stopped, evs ++ [EvLog INFO MsgStopping]).
Proof.
  intros Hbody.
  assert (Htick : tick self w h
                  = (Returned Break, evs ++ [EvLog INFO MsgStopping])).
  { unfold tick. eapply try_caught.
    - apply bind_raised. exact Hbody.
    - reflexivity.
    - reflexivity. }
  split; [exact Htick|].
  intros fuel. cbn [while_true]. rewrite run_bind, Htick. cbn.
  rewrite app_nil_r. reflexivity.
Qed.

(** X8: an exception that is neither a [KeyboardInterrupt] nor an
    [Exception] (a cancellation, a [SystemExit]) raised in the body of a
    tick is not handled: it leaves the tick and the loop as it is, without
    log line or sleep. *)
Theorem fatal_exception_leaves_loop self w h e evs :
  tick_body self w h = (Raised e, evs) ->
  is_Exception e = false ->
  e <> KeyboardInterrupt ->
  tick self w h = (Raised e, evs)
  /\ forall fuel, while_true self w (S fuel) h = (Raised e, evs).
Proof.
  intros Hbody He Hki.
  assert (Htick : tick self w h = (Raised e, evs)).
  { unfold tick. eapply try_uncaught.
    - apply bind_raised. exact Hbody.
    - destruct e; try discriminate He; try reflexivity. congruence. }
  split; [exact Htick|].
  intros fuel. cbn [while_true]. rewrite run_bind, Htick. reflexivity.
Qed.

(** X9: the sleep inside the [except Exception] clause is not protected:
    when the body of a tick fails with an ordinary exception and that
    sleep raises, whatever it raises leaves the tick and ends the loop. *)
Theorem handler_sleep_failure_leaves_loop self w h e evs e' :
  tick_body self w h = (Raised e, evs) ->
  is_Exception e = true ->
  asyncio_sleep w
    (h ++ evs ++ [EvLog ERROR (MsgUnexpected e); EvSleep (interval self)])
    (interval self) = Raised e' ->
  let out := evs ++ [EvLog ERROR (MsgUnexpected e); EvSleep (interval self)] in
  tick self w h = (Raised e', out)
  /\ forall fuel, while_true self w (S fuel) h = (Raised e', out).
Proof.
  intros Hbody He Hsleep out.
  assert (Htick : tick self w h = (Raised e', out)).
  { unfold tick. eapply try_caught.
    - apply bind_raised. exact Hbody.
    - destruct e; try discriminate He; reflexivity.
    - rewrite run_bind. cbn [log emit fst snd]. rewrite run_bind, sleep_run.
      replace (((h ++ evs) ++ [EvLog ERROR (MsgUnexpected e)])
                 ++ [EvSleep (interval self)])
        with (h ++ evs ++ [EvLog ERROR (MsgUnexpected e);
                           EvSleep (interval self)])
        by (rewrite <- !app_assoc; reflexivity).
      rewrite Hsleep. reflexivity. }
  split; [exact Htick|].
  intros fuel. cbn [while_true]. rewrite run_bind, Htick. reflexivity.
Qed.

(** ** Where results come from *)

Lemma floats_of_inv w lines vals :
  floats_of w lines = Returned vals ->
  Forall2 (fun line v => py_float w line = Some v) lines vals.
Proof.
  revert vals. induction lines as [|l ls IH]; cbn; intros vals.
  - intros [= <-]. constructor.
  - destruct (py_float w l) as [v|] eqn:Hl; [|discriminate].
    destruct (floats_of w ls) as [vs|e]; [|discriminate].
    intros [= <-]. constructor; auto.
Qed.

(** X10: a reading other than zero is always a real measurement: the
    tool exited with code 0, its stripped output was not empty, every line
    of it was a number, and the reading is their [sum]. *)
Theorem nonzero_sample_is_measured self w h v :
  fst (get_vram_usage self w h) = Returned v ->
  float_eqb v float_zero = false ->
  exists stdout vals,
    tool_answer w h = Returned (0, stdout)
    /\ strip stdout <> ""
    /\ Forall2 (fun line x => py_float w line = Some x)
         (splitlines (strip stdout)) vals
    /\ v = py_sum w vals.
Proof.
  rewrite get_vram_usage_run.
  destruct (tool_answer w h) as [[rc out]|e].
  - destruct (rc =? 0) eqn:Hrc; cbn [andb];
      [|intros [= <-]; discriminate].
    destruct (String.eqb (strip out) "") eqn:Hout; cbn [negb];
      [intros [= <-]; discriminate|].
    destruct (floats_of w (splitlines (strip out))) as [vals|e] eqn:Hf;
      [|intros [= <-]; discriminate].
    cbn. intros [= <-] _. exists out, vals.
    apply Z.eqb_eq in Hrc. subst rc. apply String.eqb_neq in Hout.
    auto using floats_of_inv.
  - destruct e; cbn; intros H; inversion H; subst; discriminate.
Qed.

(** X11: a listing that is truthy always comes from the service: the
    answer had status 200 and its body decoded to an object holding that
    value under ["models"]. *)
Theorem truthy_listing_comes_from_service self w h loaded :
  fst (get_loaded_models self w h) = Returned loaded ->
  truthy loaded = true ->
  exists d,
    ps_answer self w h = Returned (200, Returned (PDict d))
    /\ assoc "models" d = Some loaded.
Proof.
  rewrite get_loaded_models_run.
  destruct (ps_answer self w h) as [[status body]|e].
  - destruct (status =? 200) eqn:Hst; [|intros [= <-]; discriminate].
    apply Z.eqb_eq in Hst. subst status.
    destruct body as [data|e].
    + destruct data as [| | | | |l|d]; cbn;
        try (intros [= <-]; discriminate).
      destruct (assoc "models" d) as [x|] eqn:Ha.
      * intros [= <-] _. exists d. auto.
      * intros [= <-]. discriminate.
    + destruct (is_Exception e); cbn; [intros [= <-]|]; discriminate.
  - destruct (is_Exception e); cbn; [intros [= <-]|]; discriminate.
Qed.

(** X12: the three helpers let an exception through only when the
    underlying call raised it and it is not an [Exception]. *)
Theorem helpers_raise_only_fatal self w h e :
  (fst (get_vram_usage self w h) = Raised e ->
   tool_answer w h = Raised e /\ is_Exception e = false)
  /\ (fst (get_loaded_models self w h) = Raised e ->
      is_Exception e = false
      /\ (ps_answer self w h = Raised e
          \/ ps_answer self w h = Returned (200, Raised e)))
  /\ (forall model_name,
        fst (unload_model self w model_name h) = Raised e ->
        dry_run self = false
        /\ generate_answer self w model_name h = Raised e
        /\ is_Exception e = false).
Proof.
  split; [|split].
  - rewrite get_vram_usage_run.
    destruct (tool_answer w h) as [[rc out]|e0].
    + destruct (_ && _); [|discriminate].
      destruct (floats_of w _); discriminate.
    + destruct e0; cbn; intros H; inversion H; subst; auto.
  - rewrite get_loaded_models_run.
    destruct (ps_answer self w h) as [[status body]|e0].
    + destruct (status =? 200) eqn:Hst; [|discriminate].
      apply Z.eqb_eq in Hst. subst status.
      destruct body as [data|e0].
      * destruct (py_get data "models" (PList [])); discriminate.
      * destruct (is_Exception e0) eqn:He0; cbn; [discriminate|].
        intros [= <-]. auto.
    + destruct (is_Exception e0) eqn:He0; cbn; [discriminate|].
      intros [= <-]. auto.
  - intros model_name. rewrite unload_model_run.
    destruct (dry_run self); [discriminate|].
    destruct (generate_answer self w model_name h) as [status|e0].
    + discriminate.
    + destruct (is_Exception e0) eqn:He0; cbn; [discriminate|].
      intros [= <-]. auto.
Qed.

(** ** The whole program, in any world *)

Lemma main_clear_now a w fuel :
  arg_clear_now a = true ->
  main a w fuel =
  bind (log INFO MsgManualCleanup)
    (fun _ => bind (get_loaded_models (manager_of a w) w)
       (fun loaded =>
          bind (if truthy loaded then unload_all (manager_of a w) w loaded
                else log INFO MsgNoModelsFound)
            (fun _ => ret Stopped))).
Proof. intros Hclear. unfold main. rewrite Hclear. reflexivity. Qed.

Lemma clear_now_emits (P : event -> bool) a w fuel :
  arg_clear_now a = true ->
  P (EvGet (arg_host a ++ "/api/ps")%string) = true ->
  (arg_dry_run a = false ->
   forall n, P (EvPost (arg_host a ++ "/api/generate")%string
                  (unload_payload n)) = true) ->
  (forall lvl msg, P (EvLog lvl msg) = true) ->
  obeys P (fun _ => true) (main a w fuel).
Proof.
  intros Hclear Pget Ppost Plog. rewrite (main_clear_now a w fuel Hclear).
  apply obeys_bind; [apply obeys_emit, Plog|intros _].
  apply obeys_bind;
    [apply (get_loaded_models_emits P (manager_of a w) w); assumption|].
  intros loaded. apply obeys_bind; [|intros _; apply obeys_ret].
  destruct (truthy loaded); [|apply obeys_emit, Plog].
  apply (unload_all_emits P (manager_of a w) w); assumption.
Qed.

Lemma main_emits (P : event -> bool) a w fuel :
  P (EvRun nvidia_smi_argv) = true ->
  P (EvGet (arg_host a ++ "/api/ps")%string) = true ->
  (arg_dry_run a = false ->
   forall n, P (EvPost (arg_host a ++ "/api/generate")%string
                  (unload_payload n)) = true) ->
  P (EvSleep (arg_interval a)) = true ->
  (forall lvl msg, P (EvLog lvl msg) = true) ->
  obeys P (fun _ => true) (main a w fuel).
Proof.
  intros Prun Pget Ppost Psleep Plog.
  destruct (arg_clear_now a) eqn:Hclear;
    [apply clear_now_emits; assumption|].
  unfold main. rewrite Hclear. apply obeys_try.
  - apply (monitor_loop_emits P (manager_of a w) w); assumption.
  - intros e k Hk. destruct e; inversion Hk; subst k. apply obeys_ret.
Qed.

(** X13: with [--dry-run] the program never sends an unload request, in
    either mode, in any world and however long it runs. *)
Theorem dry_run_never_posts a w fuel h :
  arg_dry_run a = true ->
  posts (snd (main a w fuel h)) = [].
Proof.
  intros Hdry. apply none_filtered.
  apply (main_emits (fun ev => negb (is_post ev)) a w fuel); try reflexivity.
  rewrite Hdry. discriminate.
Qed.

Lemma list_eqb_eq xs ys : list_eqb xs ys = true -> xs = ys.
Proof.
  revert ys. induction xs as [|x xs IH]; intros [|y ys]; cbn;
    try discriminate; [reflexivity|].
  intros H. apply andb_prop in H as [Hx H].
  apply String.eqb_eq in Hx. subst y. f_equal. auto.
Qed.

Lemma list_eqb_refl xs : list_eqb xs xs = true.
Proof.
  induction xs as [|x xs IH]; cbn; [reflexivity|].
  rewrite String.eqb_refl. exact IH.
Qed.

Lemma well_formedb_sound self ev :
  well_formedb self ev = true -> well_formed self ev.
Proof.
  destruct ev as [argv|url|url payload|secs|lvl msg]; cbn.
  - apply list_eqb_eq.
  - apply String.eqb_eq.
  - destruct payload as [| | | | | |d]; try discriminate.
    destruct d as [|[k1 v1] [|[k2 v2] [|]]]; try discriminate;
      destruct v2 as [| |z| | | |]; try discriminate;
      destruct z; try discriminate.
    intros H. apply andb_prop in H as [H Hk2].
    apply andb_prop in H as [Hurl Hk1].
    apply String.eqb_eq in Hurl, Hk1, Hk2. subst.
    split; [reflexivity|]. exists v1. reflexivity.
  - apply Z.eqb_eq.
  - auto.
Qed.

(** X14: in either mode and in any world, the only command the program
    runs is the fixed [nvidia-smi] query, the only requests it sends are a
    GET on its own host's [/api/ps] and POSTs on its own host's
    [/api/generate] carrying a model name and [keep_alive = 0], and it
    only ever sleeps for the configured interval. *)
Theorem program_events_are_well_formed a w fuel h :
  Forall (well_formed (manager_of a w)) (snd (main a w fuel h)).
Proof.
  assert (H : forallb (well_formedb (manager_of a w)) (snd (main a w fuel h))
              = true).
  { apply (main_emits (well_formedb (manager_of a w)) a w fuel); cbn.
    - reflexivity.
    - apply String.eqb_refl.
    - intros _ n. rewrite String.eqb_refl. reflexivity.
    - apply Z.eqb_refl.
    - reflexivity. }
  apply Forall_forall. intros ev Hin.
  apply well_formedb_sound.
  rewrite forallb_forall in H. exact (H ev Hin).
Qed.

(** X15: one-shot mode never measures and never sleeps: in any world it
    sends exactly one listing request, runs no tool, and its whole run is
    the same for every threshold, interval and amount of fuel. *)
Theorem clear_now_never_samples a w fuel h :
  arg_clear_now a = true ->
  runs (snd (main a w fuel h)) = []
  /\ sleeps (snd (main a w fuel h)) = []
  /\ gets (snd (main a w fuel h)) = [EvGet (arg_host a ++ "/api/ps")%string]
  /\ forall t i fuel',
       main (with_interval (with_threshold a t) i) w fuel' h
       = main a w fuel h.
Proof.
  intros Hclear. split; [|split; [|split]].
  - apply none_filtered.
    apply (clear_now_emits (fun ev => negb (is_run ev)) a w fuel); auto.
  - apply none_filtered.
    apply (clear_now_emits (fun ev => negb (is_sleep ev)) a w fuel); auto.
  - rewrite (main_clear_now a w fuel Hclear).
    rewrite run_bind. cbn [log emit fst snd]. rewrite run_bind.
    pose proof (get_loaded_models_lists_once (manager_of a w) w
                  (h ++ [EvLog INFO MsgManualCleanup])) as Hg.
    destruct (get_loaded_models (manager_of a w) w _) as [[loaded|e] eg];
      cbn [fst snd] in *; [|exact Hg].
    rewrite run_bind.
    assert (Hrest : forall h',
               gets (snd ((if truthy loaded
                           then unload_all (manager_of a w) w loaded
                           else log INFO MsgNoModelsFound) h')) = []).
    { intros h'. apply none_filtered. destruct (truthy loaded).
      - apply (unload_all_emits (fun ev => negb (is_get ev))
                 (manager_of a w) w); auto.
      - reflexivity. }
    specialize (Hrest ((h ++ [EvLog INFO MsgManualCleanup]) ++ eg)).
    set (m := if truthy loaded then unload_all (manager_of a w) w loaded
              else log INFO MsgNoModelsFound) in *.
    destruct (m ((h ++ [EvLog INFO MsgManualCleanup]) ++ eg)) as [[[]|e] er];
      cbn [fst snd] in *; unfold gets in *; cbn [app filter is_get];
      rewrite ?filter_app, Hg, ?filter_app, Hrest; reflexivity.
  - intros t i fuel'. unfold main.
    cbn [arg_clear_now with_threshold with_interval]. rewrite Hclear.
    reflexivity.
Qed.

(** ** Order inside a tick *)

Lemma listed_first_after evs : listed_first true evs = true.
Proof.
  induction evs as [|[] evs IH]; cbn; auto.
Qed.

Lemma listed_first_quiet listed evs rest :
  gets evs = [] -> posts evs = [] ->
  listed_first listed (evs ++ rest) = listed_first listed rest.
Proof.
  unfold gets, posts.
  induction evs as [|ev evs IH]; cbn; [reflexivity|].
  destruct ev; cbn; try discriminate; auto.
Qed.

Lemma check_usage_listed_first self w v h rest :
  listed_first false (snd (check_usage self w v h) ++ rest)
  = if high_sample self v then true else listed_first false rest.
Proof.
  rewrite check_usage_unfold. unfold high_sample.
  destruct (_ && _); [reflexivity|].
  destruct (float_gt_int _ _); [|reflexivity].
  cbn [negb andb]. rewrite run_bind. cbn [log emit fst snd].
  rewrite run_bind.
  destruct (get_loaded_models_shape self w
              (h ++ [EvLog WARNING (MsgHighVram v (threshold_mb self))]))
    as (r & logs & Hg & _).
  rewrite Hg. destruct r; cbn; apply listed_first_after.
Qed.

(** X16: inside a tick the work is ordered: the first event is the
    measurement, and no unload request is sent before the listing request
    of that tick. *)
Theorem tick_measures_then_lists_then_unloads self w h :
  exists rest,
    snd (tick self w h) = EvRun nvidia_smi_argv :: rest
    /\ listed_first false (snd (tick self w h)) = true.
Proof.
  destruct (tick_split self w h) as (tl & Htl & ->).
  destruct (get_vram_usage_trace self w h) as (l & Hl & _).
  destruct (sampler_quiet self w h) as (_ & Hg1 & Hp1 & _).
  destruct (tail_event_quiet tl Htl) as (_ & Hg3 & Hp3 & _).
  split with (x := l ++ match fst (get_vram_usage self w h) with
                        | Returned v =>
                            snd (check_usage self w v
                                   (h ++ snd (get_vram_usage self w h)))
                        | Raised _ => []
                        end ++ tl).
  split; [rewrite Hl; reflexivity|].
  rewrite (listed_first_quiet _ _ _ Hg1 Hp1).
  assert (Htail : listed_first false tl = true).
  { rewrite <- (app_nil_r tl), (listed_first_quiet _ _ _ Hg3 Hp3).
    reflexivity. }
  destruct (fst (get_vram_usage self w h)) as [v|e]; [|exact Htail].
  rewrite check_usage_listed_first, Htail.
  destruct (high_sample self v); reflexivity.
Qed.

(** X17: a truthy listing that cannot be iterated (a number, [true]) is
    never evicted from: in one-shot mode [main] ends with [TypeError], in
    continuous mode the body of the tick raises it at [len], and neither
    enters [unload_model] or sends an unload request. *)
Theorem non_iterable_listing_raises_type_error a w fuel h self v e1 eg eg' loaded :
  truthy loaded = true ->
  py_iter loaded = Raised TypeError ->
  (arg_clear_now a = true ->
   get_loaded_models (manager_of a w) w (h ++ [EvLog INFO MsgManualCleanup])
     = (Returned loaded, eg) ->
   main a w fuel h = (Raised TypeError, EvLog INFO MsgManualCleanup :: eg))
  /\ (get_vram_usage self w h = (Returned v, e1) ->
      high_sample self v = true ->
      get_loaded_models self w
        ((h ++ e1) ++ [EvLog WARNING (MsgHighVram v (threshold_mb self))])
        = (Returned loaded, eg') ->
      tick_body self w h
      = (Raised TypeError,
         e1 ++ EvLog WARNING (MsgHighVram v (threshold_mb self)) :: eg')).
Proof.
  intros Htruthy Hiter.
  assert (Hlen : py_len loaded = Raised TypeError).
  { destruct loaded; cbn in *; try reflexivity; discriminate. }
  split.
  - intros Hclear Hg. rewrite (main_clear_now a w fuel Hclear).
    rewrite run_bind. cbn [log emit fst snd]. rewrite run_bind, Hg.
    cbn [fst snd]. rewrite run_bind, Htruthy.
    unfold unload_all. rewrite run_bind. cbn [lift]. rewrite Hiter.
    cbn. rewrite app_nil_r. reflexivity.
  - intros Hs Hhigh Hg.
    pose proof (check_usage_high_run self w v (h ++ e1) loaded eg' Hhigh Hg)
      as Hc.
    cbv zeta in Hc. unfold after_listing in Hc.
    rewrite Htruthy, run_bind in Hc. cbn [lift] in Hc. rewrite Hlen in Hc.
    cbn [fst snd] in Hc.
    unfold tick_body. rewrite run_bind, Hs. cbn [fst snd].
    rewrite run_bind, Hc. cbn. rewrite app_nil_r. reflexivity.
Qed.

(** ** The further statements at concrete inputs *)

Lemma eviction_needs_high_sample_and_listing_witness :
  forallb no_eviction (snd (tick (default_manager hot_host) hot_host [])) = false
  /\ exists v loaded,
       fst (get_vram_usage (default_manager hot_host) hot_host []) = Returned v
       /\ high_sample (default_manager hot_host) v = true
       /\ fst (get_loaded_models (default_manager hot_host) hot_host
                 (([] ++ snd (get_vram_usage (default_manager hot_host)
                                hot_host []))
                    ++ [EvLog WARNING
                          (MsgHighVram v
                             (threshold_mb (default_manager hot_host)))]))
          = Returned loaded
       /\ truthy loaded = true.
Proof.
  split; [vm_compute; reflexivity|].
  apply (eviction_needs_high_sample_and_listing
           (default_manager hot_host) hot_host []).
  vm_compute. reflexivity.
Defined.

Lemma pass_unloads_every_listed_model_witness :
  high_sample (default_manager hot_host) (float_of_Z 30000) = true
  /\ unload_calls (snd (tick (default_manager hot_host) hot_host []))
     = [PStr "A"; PStr "B"]
  /\ posts (snd (tick (default_manager hot_host) hot_host []))
     = [EvPost "http://localhost:11434/api/generate" (unload_payload (PStr "A"));
        EvPost "http://localhost:11434/api/generate" (unload_payload (PStr "B"))].
Proof.
  split; [vm_compute; reflexivity|].
  apply (pass_unloads_every_listed_model (default_manager hot_host) hot_host []
           (float_of_Z 30000) [EvRun nvidia_smi_argv]
           [EvGet "http://localhost:11434/api/ps"]
           [model "A"; model "B"] [PStr "A"; PStr "B"]).
  - vm_compute. reflexivity.
  - vm_compute. reflexivity.
  - vm_compute. reflexivity.
  - repeat constructor.
  - intros h' url payload e. cbn. discriminate.
Defined.

Lemma clear_now_stops_at_malformed_entry_witness :
  arg_clear_now (clear_now_args false) = true
  /\ py_get (PStr "oops") "name" PNone = Raised AttributeError
  /\ fst (main (clear_now_args false) mixed_host 0 []) = Raised AttributeError
  /\ unload_calls (snd (main (clear_now_args false) mixed_host 0 []))
     = [PStr "A"].
Proof.
  split; [reflexivity|]. split; [reflexivity|].
  destruct (clear_now_stops_at_malformed_entry (clear_now_args false)
              mixed_host 0 [] [EvGet "http://localhost:11434/api/ps"]
              [model "A"] [PStr "A"] (PStr "oops") [model "B"])
    as (Hraise & Hcalls & _).
  - reflexivity.
  - vm_compute. reflexivity.
  - repeat constructor.
  - reflexivity.
  - intros h' url payload e. cbn. discriminate.
  - split; [exact Hraise|exact Hcalls].
Defined.

Lemma tick_stops_pass_at_malformed_entry_witness :
  high_sample (default_manager mixed_host) (float_of_Z 30000) = true
  /\ fst (tick_body (default_manager mixed_host) mixed_host [])
     = Raised AttributeError
  /\ unload_calls (snd (tick (default_manager mixed_host) mixed_host []))
     = [PStr "A"].
Proof.
  split; [vm_compute; reflexivity|].
  destruct (tick_stops_pass_at_malformed_entry (default_manager mixed_host)
              mixed_host [] (float_of_Z 30000) [EvRun nvidia_smi_argv]
              [EvGet "http://localhost:11434/api/ps"]
              [model "A"] [PStr "A"] (PStr "oops") [model "B"])
    as (Hraise & Hcalls & _).
  - vm_compute. reflexivity.
  - vm_compute. reflexivity.
  - vm_compute. reflexivity.
  - repeat constructor.
  - reflexivity.
  - intros h' url payload e. cbn. discriminate.
  - split; [exact Hraise|exact Hcalls].
Defined.

Lemma interrupt_stops_loop_witness :
  let w := restless bare_host KeyboardInterrupt in
  tick_body (default_manager w) w []
  = (Raised KeyboardInterrupt,
     [EvRun nvidia_smi_argv; EvLog DEBUG MsgSmiNotFound;
      EvLog DEBUG MsgUnavailable; EvSleep 5])
  /\ while_true (default_manager w) w 7 []
     = (Returned Stopped,
        [EvRun nvidia_smi_argv; EvLog DEBUG MsgSmiNotFound;
         EvLog DEBUG MsgUnavailable; EvSleep 5] ++ [EvLog INFO MsgStopping]).
Proof.
  cbv zeta. split; [reflexivity|].
  apply (interrupt_stops_loop
           (default_manager (restless bare_host KeyboardInterrupt))
           (restless bare_host KeyboardInterrupt) []
           [EvRun nvidia_smi_argv; EvLog DEBUG MsgSmiNotFound;
            EvLog DEBUG MsgUnavailable; EvSleep 5]).
  reflexivity.
Defined.

Lemma fatal_exception_leaves_loop_witness :
  let w := restless bare_host CancelledError in
  is_Exception CancelledError = false
  /\ while_true (default_manager w) w 7 []
     = (Raised CancelledError,
        [EvRun nvidia_smi_argv; EvLog DEBUG MsgSmiNotFound;
         EvLog DEBUG MsgUnavailable; EvSleep 5]).
Proof.
  cbv zeta. split; [reflexivity|].
  apply (fatal_exception_leaves_loop
           (default_manager (restless bare_host CancelledError))
           (restless bare_host CancelledError) [] CancelledError
           [EvRun nvidia_smi_argv; EvLog DEBUG MsgSmiNotFound;
            EvLog DEBUG MsgUnavailable; EvSleep 5]).
  - reflexivity.
  - reflexivity.
  - discriminate.
Defined.

Lemma handler_sleep_failure_leaves_loop_witness :
  let w := restless bare_host (OtherError "OverflowError") in
  is_Exception (OtherError "OverflowError") = true
  /\ while_true (default_manager w) w 7 []
     = (Raised (OtherError "OverflowError"),
        [EvRun nvidia_smi_argv; EvLog DEBUG MsgSmiNotFound;
         EvLog DEBUG MsgUnavailable; EvSleep 5]
          ++ [EvLog ERROR (MsgUnexpected (OtherError "OverflowError"));
              EvSleep 5]).
Proof.
  cbv zeta. split; [reflexivity|].
  apply (handler_sleep_failure_leaves_loop
           (default_manager (restless bare_host (OtherError "OverflowError")))
           (restless bare_host (OtherError "OverflowError")) []
           (OtherError "OverflowError")
           [EvRun nvidia_smi_argv; EvLog DEBUG MsgSmiNotFound;
            EvLog DEBUG MsgUnavailable; EvSleep 5]
           (OtherError "OverflowError")).
  - reflexivity.
  - reflexivity.
  - reflexivity.
Defined.

Lemma nonzero_sample_is_measured_witness :
  fst (get_vram_usage (default_manager busy_host) busy_host [])
  = Returned (float_of_Z 3072)
  /\ float_eqb (float_of_Z 3072) float_zero = false
  /\ exists stdout vals,
       tool_answer busy_host [] = Returned (0, stdout)
       /\ strip stdout <> ""
       /\ Forall2 (fun line x => py_float busy_host line = Some x)
            (splitlines (strip stdout)) vals
       /\ float_of_Z 3072 = py_sum busy_host vals.
Proof.
  split; [vm_compute; reflexivity|]. split; [vm_compute; reflexivity|].
  apply (nonzero_sample_is_measured (default_manager busy_host) busy_host []
           (float_of_Z 3072)).
  - vm_compute. reflexivity.
  - vm_compute. reflexivity.
Defined.

Lemma truthy_listing_comes_from_service_witness :
  truthy (PList [model "A"; model "B"]) = true
  /\ exists d,
       ps_answer (default_manager hot_host) hot_host []
       = Returned (200, Returned (PDict d))
       /\ assoc "models" d = Some (PList [model "A"; model "B"]).
Proof.
  split; [reflexivity|].
  apply (truthy_listing_comes_from_service (default_manager hot_host)
           hot_host [] (PList [model "A"; model "B"])).
  - reflexivity.
  - reflexivity.
Defined.

Lemma helpers_raise_only_fatal_witness :
  fst (get_vram_usage (default_manager (cut_short KeyboardInterrupt))
         (cut_short KeyboardInterrupt) []) = Raised KeyboardInterrupt
  /\ tool_answer (cut_short KeyboardInterrupt) [] = Raised KeyboardInterrupt
  /\ is_Exception KeyboardInterrupt = false.
Proof.
  split; [reflexivity|].
  apply (proj1 (helpers_raise_only_fatal
                  (default_manager (cut_short KeyboardInterrupt))
                  (cut_short KeyboardInterrupt) [] KeyboardInterrupt)).
  reflexivity.
Defined.

Lemma dry_run_never_posts_witness :
  arg_dry_run (clear_now_args true) = true
  /\ posts (snd (main (clear_now_args true) busy_host 0 [])) = [].
Proof.
  split; [reflexivity|].
  apply (dry_run_never_posts (clear_now_args true) busy_host 0 []).
  reflexivity.
Defined.

Lemma clear_now_never_samples_witness :
  arg_clear_now (clear_now_args false) = true
  /\ runs (snd (main (clear_now_args false) busy_host 0 [])) = []
  /\ sleeps (snd (main (clear_now_args false) busy_host 0 [])) = [].
Proof.
  split; [reflexivity|].
  destruct (clear_now_never_samples (clear_now_args false) busy_host 0 []
              eq_refl) as (Hruns & Hsleeps & _).
  split; [exact Hruns|exact Hsleeps].
Defined.

Lemma non_iterable_listing_raises_type_error_witness :
  truthy (PInt 5) = true
  /\ py_iter (PInt 5) = Raised TypeError
  /\ main (clear_now_args false) odd_host 0 []
     = (Raised TypeError,
        [EvLog INFO MsgManualCleanup; EvGet "http://localhost:11434/api/ps"])
  /\ fst (tick_body (default_manager odd_host) odd_host []) = Raised TypeError.
Proof.
  split; [reflexivity|]. split; [reflexivity|].
  destruct (non_iterable_listing_raises_type_error (clear_now_args false)
              odd_host 0 [] (default_manager odd_host) (float_of_Z 30000)
              [EvRun nvidia_smi_argv]
              [EvGet "http://localhost:11434/api/ps"]
              [EvGet "http://localhost:11434/api/ps"] (PInt 5)
              eq_refl eq_refl) as [Hmain Htick].
  split.
  - apply Hmain; reflexivity.
  - rewrite Htick; [reflexivity| | |]; vm_compute; reflexivity.
Defined.
